(** * Post-processing of the content pipeline: section splitting and
      outline-to-deck parsing

    Shallow embedding of [multi_agent_content_orchestra.py]: the topic
    prompt, [save_sections_to_files] and [build_slides_from_outline],
    together with the part of Python's [str] API these functions call.

    A Python [str] is a sequence of Unicode code points; it is embedded as a
    list of code points ([N]).  Files hold text, the console is the list of
    chunks written to it, and exceptions are values of [exn]. *)

From Stdlib Require Import NArith Ascii String List Lia.
From stdpp Require Import base option list strings gmap.

Local Open Scope N_scope.

Abbreviation char := N (only parsing).
Abbreviation str := (list N) (only parsing).

(** ASCII literals as Python strings. *)
Definition u (s : string) : str :=
  List.map N_of_ascii (list_ascii_of_string s).

Definition LF : char := 10.
Definition CR : char := 13.
Definition SPACE : char := 32.
Definition COLON : char := 58.
Definition HYPHEN : char := 45.
Definition BULLET : char := 8226.          (* U+2022 *)
Definition CHECK_MARK : char := 9989.      (* U+2705 *)

(** ** The [str] methods used by the script *)
Module Py.

(** Characters removed by [str.strip()] without argument
    (CPython's [_PyUnicode_IsWhitespace]). *)
Definition isspace (c : char) : bool :=
  ((9 <=? c) && (c <=? 13)) || ((28 <=? c) && (c <=? 32))
  || (c =? 133) || (c =? 160) || (c =? 5760)
  || ((8192 <=? c) && (c <=? 8202))
  || (c =? 8232) || (c =? 8233) || (c =? 8239) || (c =? 8287)
  || (c =? 12288).

(** Line boundaries of [str.splitlines()]
    (CPython's [_PyUnicode_IsLinebreak]). *)
Definition islinebreak (c : char) : bool :=
  ((10 <=? c) && (c <=? 13)) || ((28 <=? c) && (c <=? 30))
  || (c =? 133) || (c =? 8232) || (c =? 8233).

Definition mem (c : char) (chars : str) : bool :=
  existsb (N.eqb c) chars.

Fixpoint lstrip_by (p : char -> bool) (s : str) : str :=
  match s with
  | c :: s' => if p c then lstrip_by p s' else s
  | [] => []
  end.

Definition rstrip_by (p : char -> bool) (s : str) : str :=
  rev (lstrip_by p (rev s)).

Definition strip_by (p : char -> bool) (s : str) : str :=
  rstrip_by p (lstrip_by p s).

(** [s.strip()] *)
Definition strip (s : str) : str := strip_by isspace s.

(** [s.strip(chars)] and [s.lstrip(chars)] *)
Definition strip_chars (chars s : str) : str :=
  strip_by (fun c => mem c chars) s.
Definition lstrip_chars (chars s : str) : str :=
  lstrip_by (fun c => mem c chars) s.

(** [s.startswith(p)] *)
Fixpoint startswith (p s : str) : bool :=
  match p, s with
  | [], _ => true
  | a :: p', b :: s' => (a =? b) && startswith p' s'
  | _ :: _, [] => false
  end.

(** [sub in s] *)
Fixpoint contains (sub s : str) : bool :=
  startswith sub s ||
  match s with
  | [] => false
  | _ :: s' => contains sub s'
  end.

Definition cons_head (c : char) (ps : list str) : list str :=
  match ps with
  | p :: ps' => (c :: p) :: ps'
  | [] => [[c]]
  end.

(** [s.split(sep, maxsplit)] for a non-empty [sep]: the text is scanned
    from the left, [n] counts the cuts still allowed and [skip] the
    characters of a separator just matched that remain to be passed. *)
Fixpoint split_go (sep : str) (n skip : nat) (s : str) : list str :=
  match s with
  | [] => [[]]
  | c :: s' =>
      match skip with
      | S k => split_go sep n k s'
      | O =>
          match n with
          | O => [s]
          | S n' =>
              if startswith sep s
              then [] :: split_go sep n' (length sep - 1) s'
              else cons_head c (split_go sep n 0 s')
          end
      end
  end.

(** [maxsplit = None] is Python's default (no limit): a text of [k]
    characters has at most [k] cuts. *)
Definition split (sep : str) (maxsplit : option nat) (s : str) : list str :=
  split_go sep (default (length s) maxsplit) 0 s.

(** [sep.join(parts)] *)
Fixpoint join (sep : str) (parts : list str) : str :=
  match parts with
  | [] => []
  | [p] => p
  | p :: ps => p ++ sep ++ join sep ps
  end.

(** [s.splitlines()]: a line ends at a line boundary, ["\r\n"] is one
    boundary, and the boundary is not part of the line; no empty line is
    produced after a final boundary. *)
Fixpoint splitlines_go (cur : str) (s : str) : list str :=
  match s with
  | [] => match cur with [] => [] | _ => [rev cur] end
  | c :: s' =>
      if islinebreak c then
        rev cur ::
          match s' with
          | d :: s'' =>
              if (c =? CR) && (d =? LF)
              then splitlines_go [] s''
              else splitlines_go [] s'
          | [] => splitlines_go [] s'
          end
      else splitlines_go (c :: cur) s'
  end.

Definition splitlines (s : str) : list str := splitlines_go [] s.

(** [s.replace(old, new)] for a non-empty [old]. *)
Fixpoint replace_go (old new : str) (skip : nat) (s : str) : str :=
  match s with
  | [] => []
  | c :: s' =>
      match skip with
      | S k => replace_go old new k s'
      | O =>
          if startswith old s
          then new ++ replace_go old new (length old - 1) s'
          else c :: replace_go old new 0 s'
      end
  end.

Definition replace (old new s : str) : str := replace_go old new 0 s.

Definition isascii (s : str) : bool := forallb (fun c => c <? 128) s.

Definition lower_ascii (c : char) : char :=
  if (65 <=? c) && (c <=? 90) then c + 32 else c.

(** Truth value of a string: empty strings are false. *)
Definition truthy (s : str) : bool :=
  match s with [] => false | _ => true end.

End Py.

(** ** Exceptions, results and the effects of the script *)

Inductive exn :=
| ValueError (msg : str)
| KeyError (key : str)
| IndexError
| FileNotFoundError (path : str).

Inductive result (A : Type) :=
| Ok (a : A)
| Raise (e : exn).
Arguments Ok {A} a.
Arguments Raise {A} e.

#[export] Instance result_ret : MRet result := fun A a => Ok a.
#[export] Instance result_bind : MBind result := fun A B f r =>
  match r with
  | Ok a => f a
  | Raise e => Raise e
  end.

(** The loop [for x in xs: acc = body(acc, x)] where the body may raise. *)
Fixpoint for_fold {A S : Type} (body : S -> A -> result S) (acc : S)
    (xs : list A) : result S :=
  match xs with
  | [] => Ok acc
  | x :: xs' => acc' ← body acc x; for_fold body acc' xs'
  end.

(** What the script can observe and change: the content of the files, by
    path, the paths it has opened for writing, in order, and what it has
    written to the console. *)
Record world := World {
  files : gmap str str;
  writes : list str;
  stdout : list str;
}.

Definition M (A : Type) : Type := world -> result A * world.

#[export] Instance M_ret : MRet M := fun A a w => (Ok a, w).
#[export] Instance M_bind : MBind M := fun A B f m w =>
  match m w with
  | (Ok a, w') => f a w'
  | (Raise e, w') => (Raise e, w')
  end.

Definition raise {A : Type} (e : exn) : M A := fun w => (Raise e, w).

Definition lift {A : Type} (r : result A) : M A := fun w => (r, w).

Definition write_stdout (chunk : str) : M unit := fun w =>
  (Ok tt, World (files w) (writes w) (stdout w ++ [chunk])).

(** [print(s)] *)
Definition print (s : str) : M unit := write_stdout (s ++ [LF]).

(** [os.path.exists(path)] *)
Definition path_exists (path : str) : M bool := fun w =>
  (Ok (bool_decide (is_Some (files w !! path))), w).

(** Text-mode reading translates ["\r\n"] and a lone ["\r"] to ["\n"]. *)
Fixpoint universal_newlines (raw : str) : str :=
  match raw with
  | [] => []
  | c :: raw' =>
      if c =? CR then
        LF :: match raw' with
              | d :: raw'' =>
                  if d =? LF then universal_newlines raw''
                  else universal_newlines raw'
              | [] => []
              end
      else c :: universal_newlines raw'
  end.

(** [with open(path, "r") as f: f.read()] *)
Definition read_file (path : str) : M str := fun w =>
  match files w !! path with
  | Some raw => (Ok (universal_newlines raw), w)
  | None => (Raise (FileNotFoundError path), w)
  end.

(** [with open(path, "w") as f: f.write(content)], on a platform whose
    line separator is ["\n"]. *)
Definition write_file (path content : str) : M unit := fun w =>
  (Ok tt, World (<[path := content]> (files w)) (writes w ++ [path])
                (stdout w)).

(** The loop [for x in xs: body(x)] with effects. *)
Fixpoint for_each {A : Type} (xs : list A) (body : A -> M unit) : M unit :=
  match xs with
  | [] => mret tt
  | x :: xs' => body x;; for_each xs' body
  end.

(** ** Dictionaries, in insertion order *)
Module Dict.

Definition t (V : Type) : Type := list (str * V).

Fixpoint get {V : Type} (k : str) (d : t V) : option V :=
  match d with
  | [] => None
  | (k', v) :: d' => if decide (k = k') then Some v else get k d'
  end.

(** [d[k] = v]: an existing key keeps its position. *)
Fixpoint set {V : Type} (k : str) (v : V) (d : t V) : t V :=
  match d with
  | [] => [(k, v)]
  | (k', v') :: d' =>
      if decide (k = k') then (k, v) :: d' else (k', v') :: set k v d'
  end.

Definition items {V : Type} (d : t V) : list (str * V) := d.

Definition keys {V : Type} (d : t V) : list str := List.map fst d.

End Dict.

(** ** Slides *)

(** A slide of the deck: the text of its title placeholder and the
    paragraphs the script puts into its body placeholder. *)
Record slide := Slide {
  slide_title : str;
  slide_body : list str;
}.

(** ** What the script takes from its libraries and collaborators *)
Class Library := {
  (** [str.lower] on strings that are not pure ASCII (Unicode case tables) *)
  unicode_lower : str -> str;
  (** the content python-pptx writes for a presentation with these slides,
      taken as fixed by the slides: the time stamps of the archive entries
      are left out *)
  pptx_save : list slide -> str;
  (** [crew.kickoff()] for the crew configured with the topic *)
  crew_kickoff : str -> M str;
}.

(** [s.lower()] *)
Definition lower `{Library} (s : str) : str :=
  if Py.isascii s then List.map Py.lower_ascii s else unicode_lower s.

(** ** The script *)

Definition OUTPUT_DIR : str := u "content_output".

(** *** Topic prompt *)

Definition topic_prompt : str :=
  u "Enter the topic you want to generate content for: ".

Definition empty_topic_message : str :=
  u "Topic cannot be empty. Please run again and enter a valid topic.".

(** [TOPIC = input(...).strip()] followed by the check of [TOPIC];
    [typed] is the line [input] returns. *)
Definition read_topic (typed : str) : M str :=
  write_stdout topic_prompt;;
  let TOPIC := Py.strip typed in
  if negb (Py.truthy TOPIC) then raise (ValueError empty_topic_message)
  else mret TOPIC.

(** *** [save_sections_to_files] *)

Definition markers : list str :=
  [ u "[KEYNOTE SPEECH]";
    u "[LINKEDIN POST]";
    u "[YOUTUBE SCRIPT]";
    u "[SLIDE OUTLINE]" ].

(** [sections] and [current] *)
Record scan_state := ScanState {
  sections : Dict.t (list str);
  current : option str;
}.

(** [{m: [] for m in markers}] and [current = None] *)
Definition scan_init : scan_state :=
  ScanState (fold_left (fun d m => Dict.set m [] d) markers []) None.

(** Body of the loop over the lines of the text. *)
Definition scan_line (st : scan_state) (line : str) : result scan_state :=
  let stripped := Py.strip line in
  if bool_decide (stripped ∈ markers) then
    Ok (ScanState (sections st) (Some stripped))
  else
    match current st with
    | Some cur =>
        if Py.truthy cur then
          match Dict.get cur (sections st) with
          | Some collected =>
              Ok (ScanState (Dict.set cur (collected ++ [line]) (sections st))
                            (current st))
          | None => Raise (KeyError cur)
          end
        else Ok st
    | None => Ok st
    end.

Definition scan_lines (st : scan_state) (lines : list str)
    : result scan_state :=
  for_fold scan_line st lines.

(** The first loop: the sections collected from the text. *)
Definition scan_sections (full_text : str) : result scan_state :=
  scan_lines scan_init (Py.splitlines full_text).

(** [marker.strip("[]").lower().replace(" ", "_") + ".txt"] *)
Definition section_filename `{Library} (marker : str) : str :=
  Py.replace (u " ") (u "_") (lower (Py.strip_chars (u "[]") marker))
  ++ u ".txt".

Definition section_path `{Library} (marker : str) : str :=
  OUTPUT_DIR ++ u "/" ++ section_filename marker.

Definition section_content (lines : list str) : str :=
  Py.strip (Py.join [LF] lines).

(** Body of the loop over [sections.items()]. *)
Definition write_section `{Library} (item : str * list str) : M unit :=
  let '(marker, lines) := item in
  match lines with
  | [] => mret tt
  | _ :: _ =>
      let filename := section_filename marker in
      write_file (OUTPUT_DIR ++ u "/" ++ filename) (section_content lines);;
      print (u "Saved " ++ marker ++ u " to " ++ filename)
  end.

Definition save_sections_to_files `{Library} (full_text : str) : M unit :=
  st ← lift (scan_sections full_text);
  for_each (Dict.items (sections st)) write_section.

(** *** [build_slides_from_outline] *)

(** [[b.strip() for b in text.split("\n\n") if b.strip()]] *)
Definition outline_blocks (text : str) : list str :=
  List.map Py.strip
    (List.filter (fun b => Py.truthy (Py.strip b))
       (Py.split [LF; LF] None text)).

(** [[line.strip() for line in block.splitlines() if line.strip()]] *)
Definition block_lines (block : str) : list str :=
  List.map Py.strip
    (List.filter (fun line => Py.truthy (Py.strip line))
       (Py.splitlines block)).

(** The title of a slide from the first line of its block. *)
Definition slide_title_of (raw_title : str) : result str :=
  if Py.contains [COLON] raw_title then
    match Py.split [COLON] (Some 1%nat) raw_title !! 1%nat with
    | Some after => Ok (Py.strip after)
    | None => Raise IndexError
    end
  else Ok raw_title.

Definition bullet_glyphs : str := [HYPHEN; BULLET; SPACE].

(** [[l.lstrip("-• ").strip() for l in lines[1:]]] *)
Definition bullet_lines_of (rest : list str) : list str :=
  List.map (fun l => Py.strip (Py.lstrip_chars bullet_glyphs l)) rest.

(** Body of the loop over [bullet_lines]: the paragraphs of the body
    placeholder and the flag [first]. *)
Definition add_bullet (st : list str * bool) (bullet : str)
    : list str * bool :=
  let '(body, first) := st in
  if negb (Py.truthy bullet) then st
  else if first then ([bullet], false)
  else (body ++ [bullet], first).

Definition fill_body (bullet_lines : list str) : list str :=
  fst (fold_left add_bullet bullet_lines ([], true)).

(** Body of the loop over the blocks; [prs] holds the slides added so far. *)
Definition add_block_slide (prs : list slide) (block : str)
    : result (list slide) :=
  match block_lines block with
  | [] => Ok prs
  | raw_title :: rest =>
      title ← slide_title_of raw_title;
      let bullet_lines := bullet_lines_of rest in
      Ok (prs ++ [Slide title (fill_body bullet_lines)])
  end.

Definition build_presentation (blocks : list str) : result (list slide) :=
  for_fold add_block_slide [] blocks.

Definition missing_outline_message (outline_path : str) : str :=
  u "[slides] No slide outline file found at " ++ outline_path
  ++ u ". Skipping PPTX generation.".

Definition empty_outline_message : str :=
  u "[slides] Slide outline is empty, nothing to build.".

Definition generated_message (pptx_path : str) : str :=
  u "[slides] " ++ [CHECK_MARK] ++ u " PPTX generated: " ++ pptx_path.

Definition build_slides_from_outline `{Library} (outline_path pptx_path : str)
    : M unit :=
  found ← path_exists outline_path;
  if negb found then print (missing_outline_message outline_path)
  else
    text ← read_file outline_path;
    let blocks := outline_blocks text in
    match blocks with
    | [] => print empty_outline_message
    | _ :: _ =>
        prs ← lift (build_presentation blocks);
        write_file pptx_path (pptx_save prs);;
        print (generated_message pptx_path)
    end.

(** *** The main block *)
Definition run_pipeline `{Library} (TOPIC : str) : M unit :=
  final_result ← crew_kickoff TOPIC;
  print ([LF] ++ u "========== FINAL RESULT ==========" ++ [LF]);;
  print final_result;;
  save_sections_to_files final_result;;
  build_slides_from_outline (OUTPUT_DIR ++ u "/slide_outline.txt")
                            (OUTPUT_DIR ++ u "/slides.pptx").

(** The topic prompt, then the main block.  The constructors of the
    models, the search tool, the agents, the tasks and the crew, which the
    script runs in between, are left out. *)
Definition main `{Library} (typed : str) : M unit :=
  TOPIC ← read_topic typed;
  run_pipeline TOPIC.

(** ** Reading of the specification *)

(** The text between the opening and the closing bracket of a marker. *)
Definition spec_bracket_contents (marker : str) : str :=
  match marker with
  | c :: inner => if c =? 91 then
                    match rev inner with
                    | d :: rinner => if d =? 93 then rev rinner else marker
                    | [] => marker
                    end
                  else marker
  | [] => marker
  end.

(** Lower-cased, spaces replaced by underscores, plus the suffix. *)
Definition spec_filename (marker : str) : str :=
  List.map (fun c => if c =? SPACE then 95 else c)
    (List.map Py.lower_ascii (spec_bracket_contents marker))
  ++ u ".txt".

Definition is_marker_line (line : str) : bool :=
  bool_decide (Py.strip line ∈ markers).

(** The marker of the most recent marker line among the lines [before]. *)
Definition spec_most_recent_marker (before : list str) : option str :=
  last (List.map Py.strip (List.filter is_marker_line before)).

(** The lines of [lines], in order and unchanged, that are not marker lines
    and whose most recent marker line is a line of [marker]; [before] holds
    the lines that precede [lines] in the text. *)
Fixpoint spec_section_from (before : list str) (marker : str)
    (lines : list str) : list str :=
  match lines with
  | [] => []
  | line :: rest =>
      let later := spec_section_from (before ++ [line]) marker rest in
      if negb (is_marker_line line)
         && bool_decide (spec_most_recent_marker before = Some marker)
      then line :: later
      else later
  end.

Definition spec_section (marker : str) (lines : list str) : list str :=
  spec_section_from [] marker lines.

(** The state of the scan keeps one bucket per marker, and the cursor is
    unset or one of the markers. *)
Definition cursor_ok (st : scan_state) : Prop :=
  Dict.keys (sections st) = markers ∧
  match current st with
  | None => True
  | Some cur => cur ∈ markers ∧ is_Some (Dict.get cur (sections st))
  end.

(** The scan after the lines [before]: the state is well formed and the
    cursor is the most recent marker. *)
Definition scan_at (before : list str) (st : scan_state) : Prop :=
  cursor_ok st ∧ current st = spec_most_recent_marker before.

(** What the loop over [sections.items()] writes: the files, the paths and
    the console lines, for the sections [items]. *)
Definition saved_message `{Library} (marker : str) : str :=
  u "Saved " ++ marker ++ u " to " ++ section_filename marker ++ [LF].

Definition saved_files `{Library} (items : list (str * list str))
    (fs : gmap str str) : gmap str str :=
  fold_left (fun fs item =>
               match snd item with
               | [] => fs
               | _ :: _ =>
                   <[section_path (fst item) := section_content (snd item)]> fs
               end) items fs.

Definition populated (items : list (str * list str)) : list str :=
  List.map fst
    (List.filter (fun item => match snd item with [] => false | _ => true end)
       items).

(** The lines of a text: the pieces between its newline characters. *)
Definition text_lines (text : str) : list str := Py.split [LF] None text.

(** The runs of consecutive lines between the lines that are boundaries. *)
Fixpoint line_runs (is_boundary : str -> bool) (lines : list str)
    : list (list str) :=
  match lines with
  | [] => [[]]
  | line :: rest =>
      if is_boundary line then [] :: line_runs is_boundary rest
      else match line_runs is_boundary rest with
           | run :: runs => (line :: run) :: runs
           | [] => [[line]]
           end
  end.

(** The blocks of a text whose boundaries are the lines [is_boundary] holds
    of: each run of lines, joined again and trimmed, unless it trims to the
    empty string. *)
Definition blocks_between (is_boundary : str -> bool) (text : str)
    : list str :=
  List.map Py.strip
    (List.filter (fun b => Py.truthy (Py.strip b))
       (List.map (Py.join [LF]) (line_runs is_boundary (text_lines text)))).

(** Boundaries are the lines that are empty after trimming. *)
Definition spec_blocks (text : str) : list str :=
  blocks_between (fun line => negb (Py.truthy (Py.strip line))) text.

(** Boundaries are the lines that are empty. *)
Definition is_empty_line (l : str) : bool := negb (Py.truthy l).

Definition spec_blocks_empty_lines (text : str) : list str :=
  blocks_between is_empty_line text.

(** The blocks kept from the pieces of a text. *)
Definition blocks_of_pieces (pieces : list str) : list str :=
  List.map Py.strip (List.filter (fun b => Py.truthy (Py.strip b)) pieces).

(** A string put in front of the first piece, a run of lines put in front
    of the first run. *)
Definition prepend (a : str) (pieces : list str) : list str :=
  match pieces with
  | p :: ps => (a ++ p) :: ps
  | [] => [a]
  end.

Definition add_run (run : list str) (runs : list (list str))
    : list (list str) :=
  match runs with
  | r :: rs => (run ++ r) :: rs
  | [] => [run]
  end.

(** The text of a run of lines that is still open. *)
Definition run_prefix (run : list str) : str :=
  match run with
  | [] => []
  | _ :: _ => Py.join [LF] run ++ [LF]
  end.

(** A string without newline character. *)
Definition one_line (l : str) : Prop := Forall (fun c => c <> LF) l.

(** The piece being cut and the run being collected agree up to the
    whitespace in front. *)
Definition open_block (acc : str) (run : list str) : Prop :=
  Py.lstrip_by Py.isspace acc = Py.lstrip_by Py.isspace (run_prefix run).

(** A string with a character that is not whitespace, and a string without. *)
Definition has_text (s : str) : Prop :=
  exists c, c ∈ s /\ Py.isspace c = false.

Definition blank (s : str) : Prop := Forall (fun c => Py.isspace c = true) s.

(** ** Sample inputs *)

(** A stand-in for the libraries, used to run the script on the samples. *)
Definition demo_library : Library := {|
  unicode_lower := fun s => s;
  pptx_save := fun prs =>
    concat (List.map (fun s => slide_title s ++ [LF]
                               ++ Py.join [LF] (slide_body s) ++ [LF; LF]) prs);
  crew_kickoff := fun TOPIC w => (Ok TOPIC, w);
|}.

Definition c3_text : str :=
  u "intro" ++ [LF] ++ u " [LINKEDIN POST] " ++ [LF] ++ u "  Hi  " ++ [LF]
  ++ u "[B-ROLL]" ++ [LF] ++ u "[SLIDE OUTLINE]" ++ [LF] ++ u "Slide 1".

Definition c7_text : str :=
  u "[KEYNOTE SPEECH]" ++ [LF] ++ u "a" ++ [LF] ++ u "[LINKEDIN POST]" ++ [LF]
  ++ u "b" ++ [LF] ++ u "[KEYNOTE SPEECH]" ++ [LF] ++ u "c".

Definition c10_text : str :=
  u "[KEYNOTE SPEECH]" ++ [LF] ++ u "   " ++ [LF] ++ [LF]
  ++ u "[LINKEDIN POST]" ++ [LF] ++ u "[SLIDE OUTLINE]" ++ [LF] ++ u " Hello ".

Definition c5_block : str :=
  u "  Slide 3: Costs: up or down?  " ++ [LF] ++ u "- Down".

Definition c6_block : str :=
  u "Slide 4: Speed" ++ [LF] ++ u "  - Fast" ++ [LF] ++ [BULLET; SPACE]
  ++ u "Cheap" ++ [LF] ++ u "- - " ++ [BULLET].

Definition c6_bare_block : str := u "Only a title" ++ [LF] ++ u " -- ".

Definition c2_deck_path : str := u "content_output/slides.pptx".
Definition c2_outline_path : str := u "content_output/slide_outline.txt".
Definition c2_old_deck : str := u "PK (an older deck)".
Definition c2_blank_outline : str := u "  " ++ [CR; LF; LF; 9; LF] ++ u " ".

(** Two titles with a line of one space between them. *)
Definition c1_text : str := u "A" ++ [LF; SPACE; LF] ++ u "B".

(** ** Measures and conditions of the further properties *)

(** The number of lines held by all the buckets together. *)
Definition collected_total (d : Dict.t (list str)) : nat :=
  sum_list (List.map (fun item => length (snd item)) d).

(** The lines behind the first marker line. *)
Fixpoint from_first_marker (lines : list str) : list str :=
  match lines with
  | [] => []
  | l :: rest => if is_marker_line l then rest else from_first_marker rest
  end.

(** A string that [strip] leaves as it is, and a string without line
    boundary. *)
Definition trimmed (s : str) : Prop := Py.strip s = s.

Definition no_linebreak (s : str) : Prop :=
  Forall (fun c => Py.islinebreak c = false) s.

(** A slide as the deck builder leaves it: title and bullets are single
    trimmed lines, and no bullet is empty. *)
Definition well_formed_slide (s : slide) : Prop :=
  trimmed (slide_title s) ∧ no_linebreak (slide_title s) ∧
  Forall (fun b => b ≠ [] ∧ trimmed b ∧ no_linebreak b) (slide_body s).

(** The paths the main block passes to [build_slides_from_outline]. *)
Definition main_outline_path : str := OUTPUT_DIR ++ u "/slide_outline.txt".
Definition main_deck_path : str := OUTPUT_DIR ++ u "/slides.pptx".

(** ** Further sample inputs *)

Definition x_plain_text : str :=
  u "Dear team," ++ [LF] ++ u "[B-ROLL]" ++ [LF] ++ u "[keynote speech]".

Definition x_shuffled_text : str :=
  u "[SLIDE OUTLINE]" ++ [LF] ++ u "Slide 1: Why" ++ [LF] ++ u "- Fast"
  ++ [LF] ++ u "[KEYNOTE SPEECH]" ++ [LF] ++ u "Hello".

Definition x_outline : str :=
  u "Slide 1: Why" ++ [CR; LF] ++ u "- Fast" ++ [CR; LF; CR; LF]
  ++ u "Slide 2: How".

(** * Properties *)

(** ** The string methods on samples *)

Example strip_sample : Py.strip (u "  a b " ++ [9; LF]) = u "a b".
Proof. reflexivity. Qed.

Example split_sample :
  Py.split (u "--") None (u "a--b---c--") = [u "a"; u "b"; u "-c"; u ""].
Proof. reflexivity. Qed.

Example split_once_sample :
  Py.split (u ":") (Some 1%nat) (u "a:b:c") = [u "a"; u "b:c"].
Proof. reflexivity. Qed.

Example split_empty_sample : Py.split (u ":") None [] = [[]].
Proof. reflexivity. Qed.

Example splitlines_sample :
  Py.splitlines (u "a" ++ [CR; LF] ++ u "b" ++ [LF; LF] ++ u "c" ++ [CR])
  = [u "a"; u "b"; u ""; u "c"].
Proof. reflexivity. Qed.

Example splitlines_empty_sample :
  Py.splitlines [] = [] ∧ Py.splitlines [LF] = [[]].
Proof. split; reflexivity. Qed.

Example replace_sample : Py.replace (u " ") (u "_") (u "a b  c") = u "a_b__c".
Proof. reflexivity. Qed.

Example universal_newlines_sample :
  universal_newlines (u "a" ++ [CR; LF] ++ u "b" ++ [CR] ++ u "c" ++ [LF])
  = u "a" ++ [LF] ++ u "b" ++ [LF] ++ u "c" ++ [LF].
Proof. reflexivity. Qed.

(** ** Facts about dictionaries *)

Lemma dict_get_set_eq {V : Type} (k : str) (v : V) (d : Dict.t V) :
  Dict.get k (Dict.set k v d) = Some v.
Proof.
  induction d as [|[k' v'] d IH]; simpl.
  - by rewrite decide_True.
  - destruct (decide (k = k')) as [->|Hne]; simpl.
    + by rewrite decide_True.
    + by rewrite decide_False.
Qed.

Lemma dict_get_set_ne {V : Type} (k k' : str) (v : V) (d : Dict.t V) :
  k ≠ k' → Dict.get k' (Dict.set k v d) = Dict.get k' d.
Proof.
  intros Hne. induction d as [|[k0 v0] d IH]; simpl.
  - by rewrite decide_False.
  - destruct (decide (k = k0)) as [->|Hk]; simpl.
    + by rewrite !decide_False.
    + by rewrite IH.
Qed.

Lemma dict_get_is_Some {V : Type} (k : str) (d : Dict.t V) :
  is_Some (Dict.get k d) ↔ k ∈ Dict.keys d.
Proof.
  induction d as [|[k' v'] d IH]; simpl.
  - split; [by intros [? ?] | by intros ?%elem_of_nil].
  - destruct (decide (k = k')) as [->|Hne].
    + split; [intros _; apply elem_of_cons; by left | by eauto].
    + rewrite IH. split; [intros ?; apply elem_of_cons; by right|].
      intros [?|?]%elem_of_cons; [done|done].
Qed.

Lemma dict_keys_set {V : Type} (k : str) (v : V) (d : Dict.t V) :
  is_Some (Dict.get k d) → Dict.keys (Dict.set k v d) = Dict.keys d.
Proof.
  induction d as [|[k' v'] d IH]; simpl.
  - by intros [? ?].
  - destruct (decide (k = k')) as [->|Hne]; simpl; [done|].
    intros H. f_equal. by apply IH.
Qed.

(** ** Facts about the loops *)

Lemma for_fold_app {A S : Type} (body : S → A → result S) (acc : S)
    (xs ys : list A) :
  for_fold body acc (xs ++ ys)
  = acc' ← for_fold body acc xs; for_fold body acc' ys.
Proof.
  revert acc. induction xs as [|x xs IH]; intros acc; simpl; [done|].
  destruct (body acc x) as [acc'|e]; simpl; [apply IH | done].
Qed.

(** ** The scan of [save_sections_to_files] *)

Lemma markers_truthy (m : str) : m ∈ markers → Py.truthy m = true.
Proof.
  unfold markers. rewrite !elem_of_cons, elem_of_nil.
  intros [->|[->|[->|[->|[]]]]]; reflexivity.
Qed.

Lemma scan_init_ok : cursor_ok scan_init.
Proof. split; [reflexivity | exact I]. Qed.

Lemma scan_init_get (m : str) :
  m ∈ markers → Dict.get m (sections scan_init) = Some [].
Proof.
  unfold markers. rewrite !elem_of_cons, elem_of_nil.
  intros [->|[->|[->|[->|[]]]]]; reflexivity.
Qed.

Lemma is_marker_line_true (line : str) :
  is_marker_line line = true ↔ Py.strip line ∈ markers.
Proof. unfold is_marker_line. by rewrite bool_decide_eq_true. Qed.

Lemma is_marker_line_false (line : str) :
  is_marker_line line = false ↔ Py.strip line ∉ markers.
Proof. unfold is_marker_line. by rewrite bool_decide_eq_false. Qed.

(** One iteration of the scan, by cases on the line and the cursor. *)
Lemma scan_line_marker (st : scan_state) (line : str) :
  is_marker_line line = true →
  scan_line st line = Ok (ScanState (sections st) (Some (Py.strip line))).
Proof. intros H. unfold scan_line. fold (is_marker_line line). by rewrite H. Qed.

Lemma scan_line_unset (st : scan_state) (line : str) :
  is_marker_line line = false → current st = None →
  scan_line st line = Ok st.
Proof.
  intros H Hc. unfold scan_line. fold (is_marker_line line).
  by rewrite H, Hc.
Qed.

Lemma scan_line_content (st : scan_state) (line cur : str)
    (collected : list str) :
  is_marker_line line = false → current st = Some cur → cur ∈ markers →
  Dict.get cur (sections st) = Some collected →
  scan_line st line
  = Ok (ScanState (Dict.set cur (collected ++ [line]) (sections st))
                  (Some cur)).
Proof.
  intros H Hc Hm Hg. unfold scan_line. fold (is_marker_line line).
  by rewrite H, Hc, (markers_truthy _ Hm), Hg.
Qed.

Lemma scan_line_ok (st : scan_state) (line : str) :
  cursor_ok st → ∃ st', scan_line st line = Ok st' ∧ cursor_ok st'.
Proof.
  intros [Hkeys Hcur].
  destruct (is_marker_line line) eqn:Hl.
  - eexists. split; [by apply scan_line_marker|].
    apply is_marker_line_true in Hl.
    split; simpl; [done|]. split; [done|].
    apply dict_get_is_Some. by rewrite Hkeys.
  - destruct (current st) as [cur|] eqn:Hc.
    + destruct Hcur as [Hm [collected Hg]].
      eexists. split; [by eapply scan_line_content|].
      split; simpl.
      * rewrite dict_keys_set; [done | by eexists].
      * split; [done|]. rewrite dict_get_set_eq. by eexists.
    + exists st. split; [by apply scan_line_unset|].
      split; [done | by rewrite Hc].
Qed.

Lemma scan_lines_ok (st : scan_state) (lines : list str) :
  cursor_ok st → ∃ st', scan_lines st lines = Ok st' ∧ cursor_ok st'.
Proof.
  revert st. induction lines as [|line lines IH]; intros st Hok.
  - by exists st.
  - destruct (scan_line_ok st line Hok) as (st1 & Hst1 & Hok1).
    destruct (IH st1 Hok1) as (st' & Hst' & Hok').
    exists st'. split; [|done].
    unfold scan_lines in *. simpl. by rewrite Hst1.
Qed.

Lemma most_recent_snoc (before : list str) (line : str) :
  spec_most_recent_marker (before ++ [line])
  = if is_marker_line line then Some (Py.strip line)
    else spec_most_recent_marker before.
Proof.
  unfold spec_most_recent_marker.
  rewrite List.filter_app. simpl.
  destruct (is_marker_line line).
  - rewrite List.map_app. simpl. apply last_snoc.
  - by rewrite app_nil_r.
Qed.

Lemma scan_lines_from (before lines : list str) (st : scan_state) :
  scan_at before st →
  ∃ st', scan_lines st lines = Ok st' ∧ scan_at (before ++ lines) st' ∧
    ∀ m old, Dict.get m (sections st) = Some old →
      Dict.get m (sections st')
      = Some (old ++ spec_section_from before m lines).
Proof.
  revert before st.
  induction lines as [|line lines IH]; intros before st [Hok Hcur].
  - exists st. rewrite !app_nil_r. split; [done|]. split; [done|].
    intros m old Hg. by rewrite app_nil_r.
  - assert (Hnext : ∀ st1, scan_line st line = Ok st1 →
        scan_at (before ++ [line]) st1 →
        (∀ m old, Dict.get m (sections st) = Some old →
           Dict.get m (sections st1)
           = Some (old ++ spec_section_from before m [line])) →
        ∃ st', scan_lines st (line :: lines) = Ok st' ∧
          scan_at (before ++ line :: lines) st' ∧
          ∀ m old, Dict.get m (sections st) = Some old →
            Dict.get m (sections st')
            = Some (old ++ spec_section_from before m (line :: lines))).
    { intros st1 Hst1 Hat1 Hsec1.
      destruct (IH (before ++ [line]) st1 Hat1) as (st' & Hst' & Hat' & Hsec').
      exists st'. split; [|split].
      - unfold scan_lines in *. simpl. by rewrite Hst1.
      - by rewrite <- app_assoc in Hat'.
      - intros m old Hg. rewrite (Hsec' m _ (Hsec1 m old Hg)).
        f_equal. rewrite <- app_assoc. f_equal. simpl.
        by destruct (_ && _). }
    destruct (is_marker_line line) eqn:Hl.
    + apply (Hnext _ (scan_line_marker st line Hl)).
      * destruct (scan_line_ok st line Hok) as (st1 & Hst1 & Hok1).
        rewrite (scan_line_marker st line Hl) in Hst1.
        injection Hst1 as <-. split; [done|].
        by rewrite most_recent_snoc, Hl.
      * intros m old Hg. simpl. by rewrite Hl, app_nil_r.
    + destruct (current st) as [cur|] eqn:Hc.
      * destruct Hok as [Hkeys Hcok]. rewrite Hc in Hcok.
        destruct Hcok as [Hm [collected Hg]].
        pose proof (scan_line_content st line cur collected Hl Hc Hm Hg)
          as Hst1.
        apply (Hnext _ Hst1).
        -- destruct (scan_line_ok st line) as (st1 & Hst1' & Hok1).
           { split; [done|]. rewrite Hc. split; [done | by eexists]. }
           rewrite Hst1 in Hst1'. injection Hst1' as <-. split; [done|].
           by rewrite most_recent_snoc, Hl, <- Hcur.
        -- intros m old Hgm. simpl. rewrite Hl, <- Hcur. simpl.
           destruct (decide (cur = m)) as [->|Hne].
           ++ rewrite bool_decide_eq_true_2 by done.
              rewrite dict_get_set_eq. congruence.
           ++ rewrite bool_decide_eq_false_2 by congruence.
              rewrite dict_get_set_ne by done. by rewrite app_nil_r.
      * apply (Hnext _ (scan_line_unset st line Hl Hc)).
        -- split; [done|]. by rewrite most_recent_snoc, Hl, <- Hcur.
        -- intros m old Hgm. simpl. rewrite Hl, <- Hcur.
           rewrite bool_decide_eq_false_2 by done. simpl.
           by rewrite app_nil_r.
Qed.

Lemma scan_at_init : scan_at [] scan_init.
Proof. split; [apply scan_init_ok | reflexivity]. Qed.

Lemma spec_section_from_content (before : list str) (m : str)
    (lines : list str) (l : str) :
  l ∈ spec_section_from before m lines →
  l ∈ lines ∧ Py.strip l ∉ markers.
Proof.
  revert before. induction lines as [|line lines IH]; intros before; simpl.
  - by intros ?%elem_of_nil.
  - destruct (is_marker_line line) eqn:Hl; simpl.
    + intros [? ?]%IH. split; [by apply elem_of_cons; right | done].
    + destruct (bool_decide _).
      * intros [->|Hin]%elem_of_cons.
        -- split; [by apply elem_of_cons; left|].
           by apply is_marker_line_false.
        -- apply IH in Hin as [? ?].
           split; [by apply elem_of_cons; right | done].
      * intros [? ?]%IH. split; [by apply elem_of_cons; right | done].
Qed.

Lemma spec_section_from_sublist (before : list str) (m : str)
    (lines : list str) :
  sublist (spec_section_from before m lines) lines.
Proof.
  revert before. induction lines as [|line lines IH]; intros before; simpl.
  - constructor.
  - destruct (_ && _); [apply sublist_skip | apply sublist_cons]; apply IH.
Qed.

Lemma spec_section_from_open (before : list str) (m : str)
    (content : list str) :
  spec_most_recent_marker before = Some m →
  Forall (λ l, Py.strip l ∉ markers) content →
  spec_section_from before m content = content.
Proof.
  intros Hm Hc. revert before Hm.
  induction Hc as [|line content Hl Hc IH]; intros before Hm; simpl; [done|].
  apply is_marker_line_false in Hl. rewrite Hl. simpl.
  rewrite bool_decide_eq_true_2 by done. f_equal.
  apply IH. by rewrite most_recent_snoc, Hl.
Qed.

Lemma scan_lines_unset (st : scan_state) (pre : list str) :
  current st = None →
  Forall (λ l, Py.strip l ∉ markers) pre →
  scan_lines st pre = Ok st.
Proof.
  intros Hc Hpre. induction Hpre as [|line pre Hl Hpre IH]; [done|].
  unfold scan_lines in *. simpl.
  apply is_marker_line_false in Hl.
  by rewrite (scan_line_unset st line Hl Hc).
Qed.

Lemma markers_cases (P : str → Prop) :
  P (u "[KEYNOTE SPEECH]") → P (u "[LINKEDIN POST]") →
  P (u "[YOUTUBE SCRIPT]") → P (u "[SLIDE OUTLINE]") →
  ∀ m, m ∈ markers → P m.
Proof.
  intros H1 H2 H3 H4 m. unfold markers.
  rewrite !elem_of_cons, elem_of_nil.
  intros [->|[->|[->|[->|[]]]]]; assumption.
Qed.

(** C3.  For every text the scan succeeds, and the lines collected under a
    marker are exactly the lines of the text, unchanged and in their order,
    that are not marker lines and whose most recent marker line carries
    that marker.  The collected lines are a subsequence of the lines of the
    text, none of them is a marker after trimming, and the lines in front
    of the first marker line do not count: scanning the text without them
    gives the same state. *)
Theorem sections_collect_following_lines (full_text : str) :
  ∃ st, scan_sections full_text = Ok st ∧
    (∀ m, m ∈ markers →
       Dict.get m (sections st)
       = Some (spec_section m (Py.splitlines full_text))) ∧
    (∀ m collected, Dict.get m (sections st) = Some collected →
       sublist collected (Py.splitlines full_text) ∧
       ∀ l, l ∈ collected → Py.strip l ∉ markers) ∧
    (∀ pre rest, Py.splitlines full_text = pre ++ rest →
       Forall (λ l, Py.strip l ∉ markers) pre →
       scan_lines scan_init rest = Ok st).
Proof.
  unfold scan_sections.
  destruct (scan_lines_from [] (Py.splitlines full_text) scan_init scan_at_init)
    as (st & Hst & [[Hkeys _] _] & Hsec).
  assert (Hall : ∀ m, m ∈ markers →
    Dict.get m (sections st) = Some (spec_section m (Py.splitlines full_text))).
  { intros m Hm. by rewrite (Hsec m [] (scan_init_get m Hm)). }
  exists st. split; [done|]. split; [done|]. split.
  - intros m collected Hg.
    assert (Hm : m ∈ markers).
    { rewrite <- Hkeys. apply dict_get_is_Some. by eexists. }
    rewrite (Hall m Hm) in Hg. injection Hg as <-. split.
    + apply spec_section_from_sublist.
    + intros l Hl. by eapply spec_section_from_content.
  - intros pre rest Hsplit Hpre. rewrite Hsplit in Hst.
    unfold scan_lines in *. rewrite for_fold_app in Hst.
    pose proof (scan_lines_unset scan_init pre eq_refl Hpre) as Hskip.
    unfold scan_lines in Hskip. by rewrite Hskip in Hst.
Qed.

Lemma sections_collect_following_lines_witness :
  ∃ st, scan_sections c3_text = Ok st ∧
    Dict.get (u "[LINKEDIN POST]") (sections st)
    = Some [u "  Hi  "; u "[B-ROLL]"] ∧
    (∀ l, l ∈ [u "  Hi  "; u "[B-ROLL]"] → Py.strip l ∉ markers) ∧
    scan_lines scan_init
      [u " [LINKEDIN POST] "; u "  Hi  "; u "[B-ROLL]"; u "[SLIDE OUTLINE]";
       u "Slide 1"] = Ok st.
Proof.
  destruct (sections_collect_following_lines c3_text)
    as (st & Hst & Hall & Hcontent & Hpre).
  exists st. split; [exact Hst|].
  assert (Hg : Dict.get (u "[LINKEDIN POST]") (sections st)
               = Some [u "  Hi  "; u "[B-ROLL]"]).
  { rewrite (Hall (u "[LINKEDIN POST]")); [reflexivity|].
    apply (bool_decide_unpack _). vm_compute. exact I. }
  split; [exact Hg|]. split.
  - exact (proj2 (Hcontent _ _ Hg)).
  - apply (Hpre [u "intro"]); [reflexivity|].
    repeat constructor. apply (bool_decide_unpack _). vm_compute. exact I.
Defined.

(** C7.  When a marker line is met after any lines [seen], be it the first
    or a later occurrence of that marker, the content lines that follow it
    are put behind what the bucket of the marker held already: the scan
    does not fail, the earlier content stays, and there is still one bucket
    per marker. *)
Theorem repeated_marker_appends (full_text : str)
    (seen content later : list str) (marker_line m : str) :
  Py.splitlines full_text = seen ++ marker_line :: content ++ later →
  Py.strip marker_line = m → m ∈ markers →
  Forall (λ l, Py.strip l ∉ markers) content →
  ∃ st_seen st old more,
    scan_lines scan_init seen = Ok st_seen ∧
    Dict.get m (sections st_seen) = Some old ∧
    scan_sections full_text = Ok st ∧
    Dict.get m (sections st) = Some (old ++ content ++ more) ∧
    Dict.keys (sections st) = markers.
Proof.
  intros Hsplit Hml Hm Hcontent.
  destruct (scan_lines_from [] seen scan_init scan_at_init)
    as (st1 & Hst1 & Hat1 & Hsec1).
  destruct (scan_lines_from _ (marker_line :: content) st1 Hat1)
    as (st2 & Hst2 & Hat2 & Hsec2).
  destruct (scan_lines_from _ later st2 Hat2)
    as (st3 & Hst3 & [[Hkeys3 _] _] & Hsec3).
  pose proof (Hsec1 m [] (scan_init_get m Hm)) as Hold. simpl in Hold.
  pose proof (Hsec2 m _ Hold) as Hmid.
  pose proof (Hsec3 m _ Hmid) as Hend.
  assert (Hmark : is_marker_line marker_line = true).
  { apply is_marker_line_true. by rewrite Hml. }
  assert (Hrun : spec_section_from ([] ++ seen) m (marker_line :: content)
                 = content).
  { simpl. rewrite Hmark. simpl. apply spec_section_from_open; [|done].
    by rewrite most_recent_snoc, Hmark, Hml. }
  rewrite Hrun in Hend.
  exists st1, st3, (spec_section_from [] m seen),
    (spec_section_from (([] ++ seen) ++ marker_line :: content) m later).
  split; [done|]. split; [done|]. split; [|split; [|done]].
  - unfold scan_sections, scan_lines in *. rewrite Hsplit.
    rewrite for_fold_app, Hst1.
    change (for_fold scan_line st1 ((marker_line :: content) ++ later)
            = Ok st3).
    rewrite for_fold_app, Hst2. exact Hst3.
  - by rewrite Hend, <- app_assoc.
Qed.

Lemma repeated_marker_appends_witness :
  ∃ st_seen st old more,
    scan_lines scan_init
      [u "[KEYNOTE SPEECH]"; u "a"; u "[LINKEDIN POST]"; u "b"] = Ok st_seen ∧
    Dict.get (u "[KEYNOTE SPEECH]") (sections st_seen) = Some old ∧
    scan_sections c7_text = Ok st ∧
    Dict.get (u "[KEYNOTE SPEECH]") (sections st)
    = Some (old ++ [u "c"] ++ more) ∧
    Dict.keys (sections st) = markers.
Proof.
  apply (repeated_marker_appends c7_text
           [u "[KEYNOTE SPEECH]"; u "a"; u "[LINKEDIN POST]"; u "b"]
           [u "c"] [] (u "[KEYNOTE SPEECH]") (u "[KEYNOTE SPEECH]")).
  - reflexivity.
  - reflexivity.
  - apply (bool_decide_unpack _). vm_compute. exact I.
  - repeat constructor. apply (bool_decide_unpack _). vm_compute. exact I.
Defined.

(** C9.  After any lines the scan has not failed, the state keeps one
    bucket per marker and the cursor is unset or one of the four markers
    whose bucket exists; the next iteration succeeds as well and either
    leaves the buckets alone or appends the line to the bucket of a cursor
    that is a marker.  So the scan of a whole text never fails. *)
Theorem scan_cursor_is_a_marker (full_text : str) (seen : list str)
    (line : str) :
  (∃ st, scan_sections full_text = Ok st ∧ cursor_ok st) ∧
  ∃ st st', scan_lines scan_init seen = Ok st ∧ cursor_ok st ∧
    scan_line st line = Ok st' ∧
    (sections st' = sections st ∨
     ∃ cur collected, current st = Some cur ∧ cur ∈ markers ∧
       Dict.get cur (sections st) = Some collected ∧
       sections st' = Dict.set cur (collected ++ [line]) (sections st)).
Proof.
  split; [apply scan_lines_ok, scan_init_ok|].
  destruct (scan_lines_ok scan_init seen scan_init_ok) as (st & Hst & Hok).
  exists st.
  destruct (is_marker_line line) eqn:Hl.
  - eexists. split; [done|]. split; [done|].
    split; [by apply scan_line_marker|]. by left.
  - destruct (current st) as [cur|] eqn:Hc.
    + pose proof Hok as [_ Hcur]. rewrite Hc in Hcur.
      destruct Hcur as [Hm [collected Hg]].
      eexists. split; [done|]. split; [done|].
      split; [by eapply scan_line_content|].
      right. by exists cur, collected.
    + exists st. split; [done|]. split; [done|].
      split; [by apply scan_line_unset|]. by left.
Qed.

(** C8.  A typed topic that is empty after trimming makes the script stop
    with [ValueError] when only the prompt has been written: nothing of the
    pipeline has run.  A topic that is not empty after trimming passes, and
    the pipeline starts with the trimmed topic. *)
Theorem empty_topic_is_fatal `{Library} (typed : str) (w : world) :
  let w' := World (files w) (writes w) (stdout w ++ [topic_prompt]) in
  (Py.strip typed = [] →
     read_topic typed w = (Raise (ValueError empty_topic_message), w') ∧
     main typed w = (Raise (ValueError empty_topic_message), w')) ∧
  (Py.strip typed ≠ [] →
     read_topic typed w = (Ok (Py.strip typed), w') ∧
     main typed w = run_pipeline (Py.strip typed) w').
Proof.
  intros w'. unfold main, read_topic, mbind, M_bind, write_stdout. simpl.
  fold w'. split; intros Ht.
  - rewrite Ht. simpl. by split.
  - destruct (Py.strip typed) as [|c t]; [done|]. simpl. by split.
Qed.

Lemma empty_topic_is_fatal_witness :
  @main demo_library (u "   ") (World ∅ [] [])
  = (Raise (ValueError empty_topic_message), World ∅ [] [topic_prompt]) ∧
  read_topic (u " AI agents ") (World ∅ [] [])
  = (Ok (u "AI agents"), World ∅ [] [topic_prompt]).
Proof.
  pose proof (@empty_topic_is_fatal demo_library (u "   ") (World ∅ [] [])) as [Hempty _].
  pose proof (@empty_topic_is_fatal demo_library (u " AI agents ") (World ∅ [] [])) as [_ Hok].
  split.
  - apply Hempty. reflexivity.
  - apply Hok. vm_compute. discriminate.
Defined.

(** C4.  The file name of each of the four markers is the text between its
    brackets in lower case, with underscores for spaces, followed by
    [.txt]; whatever the libraries, the names are the four listed ones,
    and they are pairwise distinct. *)
Theorem filename_derivation `{Library} :
  List.map section_filename markers
  = [u "keynote_speech.txt"; u "linkedin_post.txt"; u "youtube_script.txt";
     u "slide_outline.txt"] ∧
  (∀ m, m ∈ markers → section_filename m = spec_filename m) ∧
  NoDup (List.map section_filename markers) ∧
  (∀ m1 m2, m1 ∈ markers → m2 ∈ markers →
     section_filename m1 = section_filename m2 → m1 = m2).
Proof.
  assert (Hnames : List.map section_filename markers
    = [u "keynote_speech.txt"; u "linkedin_post.txt"; u "youtube_script.txt";
       u "slide_outline.txt"]) by reflexivity.
  split; [exact Hnames|]. split; [|split].
  - apply markers_cases; reflexivity.
  - rewrite Hnames. apply (bool_decide_unpack _). vm_compute. exact I.
  - intros m1 m2 H1 H2. unfold markers in H1, H2.
    rewrite !elem_of_cons, elem_of_nil in H1, H2.
    destruct H1 as [->|[->|[->|[->|[]]]]];
      destruct H2 as [->|[->|[->|[->|[]]]]];
      intros Heq; try reflexivity; vm_compute in Heq; discriminate Heq.
Qed.

Lemma filename_derivation_witness :
  @section_filename demo_library (u "[SLIDE OUTLINE]")
  = spec_filename (u "[SLIDE OUTLINE]")
  ∧ u "[SLIDE OUTLINE]" = u "[SLIDE OUTLINE]"
  ∧ @section_filename demo_library (u "[SLIDE OUTLINE]")
    ≠ @section_filename demo_library (u "[KEYNOTE SPEECH]").
Proof.
  pose proof (@filename_derivation demo_library) as (_ & Hspec & _ & Hinj).
  assert (Hs : u "[SLIDE OUTLINE]" ∈ markers).
  { apply (bool_decide_unpack _). vm_compute. exact I. }
  assert (Hk : u "[KEYNOTE SPEECH]" ∈ markers).
  { apply (bool_decide_unpack _). vm_compute. exact I. }
  split; [exact (Hspec _ Hs)|]. split.
  - apply (Hinj _ _ Hs Hs). reflexivity.
  - intros Heq. apply (Hinj _ _ Hs Hk) in Heq. discriminate Heq.
Defined.

(** ** Facts about [strip] *)

Lemma lstrip_by_all (p : char → bool) (s : str) :
  Forall (λ c, p c = true) s → Py.lstrip_by p s = [].
Proof. induction 1 as [|c s Hc _ IH]; simpl; [done | by rewrite Hc]. Qed.

Lemma strip_by_all (p : char → bool) (s : str) :
  Forall (λ c, p c = true) s → Py.strip_by p s = [].
Proof.
  intros Hs. unfold Py.strip_by, Py.rstrip_by.
  by rewrite (lstrip_by_all p s Hs).
Qed.

Lemma join_all_space (lines : list str) :
  Forall (Forall (λ c, Py.isspace c = true)) lines →
  Forall (λ c, Py.isspace c = true) (Py.join [LF] lines).
Proof.
  induction 1 as [|l lines Hl Hlines IH]; [constructor|].
  destruct lines as [|l' lines]; [done|].
  change (Py.join [LF] (l :: l' :: lines))
    with (l ++ [LF] ++ Py.join [LF] (l' :: lines)).
  apply Forall_app. split; [done|].
  apply Forall_app. split; [|done]. by repeat constructor.
Qed.

Lemma section_content_blank (lines : list str) :
  Forall (Forall (λ c, Py.isspace c = true)) lines →
  section_content lines = [].
Proof. intros H. apply strip_by_all, join_all_space, H. Qed.

(** ** The loop over the sections *)

Lemma bind_ok {A B : Type} (m : M A) (f : A → M B) (w w' : world) (a : A) :
  m w = (Ok a, w') → (m ≫= f) w = f a w'.
Proof. intros Hm. unfold mbind, M_bind. by rewrite Hm. Qed.

Lemma write_sections_run `{Library} (items : list (str * list str))
    (w : world) :
  for_each items write_section w
  = (Ok tt,
     World (saved_files items (files w))
           (writes w ++ List.map section_path (populated items))
           (stdout w ++ List.map saved_message (populated items))).
Proof.
  revert w. induction items as [|[m lines] items IH]; intros w.
  - simpl. unfold mret, M_ret. rewrite !app_nil_r. by destruct w.
  - destruct lines as [|l lines].
    + change (for_each ((m, []) :: items) write_section)
        with (mret tt ≫= λ _ : (), for_each items write_section).
      rewrite (bind_ok _ _ w w tt) by done. by rewrite IH.
    + change (for_each ((m, l :: lines) :: items) write_section)
        with ((write_file (section_path m) (section_content (l :: lines));;
               print (u "Saved " ++ m ++ u " to " ++ section_filename m))
              ≫= λ _ : (), for_each items write_section).
      erewrite bind_ok; [|by erewrite bind_ok; [|done]].
      rewrite IH. unfold saved_files, populated, saved_message. simpl.
      by rewrite <- !app_assoc.
Qed.

Lemma dict_get_elem_of {V : Type} (k : str) (v : V) (d : Dict.t V) :
  Dict.get k d = Some v → (k, v) ∈ d.
Proof.
  induction d as [|[k' v'] d IH]; simpl; [done|].
  destruct (decide (k = k')) as [->|Hne].
  - intros [= ->]. by apply elem_of_cons; left.
  - intros Hg. apply elem_of_cons; right. by apply IH.
Qed.

Lemma saved_files_other `{Library} (items : list (str * list str))
    (fs : gmap str str) (p : str) :
  p ∉ List.map section_path (Dict.keys items) →
  saved_files items fs !! p = fs !! p.
Proof.
  revert fs. induction items as [|[m lines] items IH]; intros fs Hp; [done|].
  simpl in Hp. apply not_elem_of_cons in Hp as [Hne Hp].
  unfold saved_files in *. simpl. rewrite IH by done.
  destruct lines; [done|]. by rewrite lookup_insert_ne.
Qed.

Lemma saved_files_lookup `{Library} (items : list (str * list str))
    (fs : gmap str str) (m : str) (lines : list str) :
  NoDup (List.map section_path (Dict.keys items)) →
  (m, lines) ∈ items →
  saved_files items fs !! section_path m
  = match lines with
    | [] => fs !! section_path m
    | _ :: _ => Some (section_content lines)
    end.
Proof.
  revert fs. induction items as [|[m' lines'] items IH]; intros fs Hnd Hin.
  - by apply elem_of_nil in Hin.
  - simpl in Hnd. apply NoDup_cons in Hnd as [Hfresh Hnd].
    apply elem_of_cons in Hin as [[= <- <-]|Hin].
    + change (saved_files ((m, lines) :: items) fs)
        with (saved_files items
                (match lines with
                 | [] => fs
                 | _ :: _ => <[section_path m := section_content lines]> fs
                 end)).
      rewrite saved_files_other by done.
      destruct lines; [done|]. by rewrite lookup_insert_eq.
    + change (saved_files ((m', lines') :: items) fs)
        with (saved_files items
                (match lines' with
                 | [] => fs
                 | _ :: _ => <[section_path m' := section_content lines']> fs
                 end)).
      rewrite IH by done. destruct lines; [|done].
      destruct lines'; [done|]. rewrite lookup_insert_ne; [done|].
      intros Heq. apply Hfresh. rewrite Heq.
      apply list_elem_of_fmap. exists m. split; [done|].
      apply list_elem_of_fmap. by exists (m, []).
Qed.

Lemma populated_elem_of (items : list (str * list str)) (m : str) :
  m ∈ populated items ↔ ∃ lines, (m, lines) ∈ items ∧ lines ≠ [].
Proof.
  unfold populated. rewrite list_elem_of_fmap. split.
  - intros ([m' lines] & -> & Hin). apply list_elem_of_In in Hin.
    apply List.filter_In in Hin as [Hin Hne]. apply list_elem_of_In in Hin.
    exists lines. split; [done|]. simpl in Hne. by destruct lines.
  - intros (lines & Hin & Hne). exists (m, lines). split; [done|].
    apply list_elem_of_In, List.filter_In. split; [by apply list_elem_of_In|].
    simpl. by destruct lines.
Qed.

Lemma section_paths_NoDup `{Library} :
  NoDup (List.map section_path markers).
Proof. apply (bool_decide_unpack _). vm_compute. exact I. Qed.

Lemma dict_elem_of_get {V : Type} (k : str) (v : V) (d : Dict.t V) :
  NoDup (Dict.keys d) → (k, v) ∈ d → Dict.get k d = Some v.
Proof.
  induction d as [|[k' v'] d IH]; simpl; intros Hnd Hin.
  - by apply elem_of_nil in Hin.
  - apply NoDup_cons in Hnd as [Hfresh Hnd].
    apply elem_of_cons in Hin as [[= <- <-]|Hin].
    + by rewrite decide_True.
    + rewrite decide_False; [by apply IH|].
      intros <-. apply Hfresh. apply list_elem_of_fmap. by exists (k, v).
Qed.

Lemma NoDup_map_inj {A B : Type} (f : A → B) (l : list A) (x y : A) :
  NoDup (List.map f l) → x ∈ l → y ∈ l → f x = f y → x = y.
Proof.
  induction l as [|a l IH]; simpl; intros Hnd Hx Hy Heq.
  - by apply elem_of_nil in Hx.
  - apply NoDup_cons in Hnd as [Hfresh Hnd].
    apply elem_of_cons in Hx as [->|Hx]; apply elem_of_cons in Hy as [->|Hy].
    + done.
    + exfalso. apply Hfresh. rewrite Heq. by apply list_elem_of_fmap_2.
    + exfalso. apply Hfresh. rewrite <- Heq. by apply list_elem_of_fmap_2.
    + by apply IH.
Qed.

Lemma markers_NoDup : NoDup markers.
Proof. apply (bool_decide_unpack _). vm_compute. exact I. Qed.

(** C10.  [save_sections_to_files] succeeds, and the file of a section is
    written exactly when the section has collected at least one line.  A
    section without lines leaves its file as it was; a section with lines
    gets the lines joined by newlines and trimmed, which is the empty
    string when all its lines are whitespace. *)
Theorem section_omitted_iff_no_lines `{Library} (full_text : str) (w : world) :
  ∃ st w' written,
    scan_sections full_text = Ok st ∧
    save_sections_to_files full_text w = (Ok tt, w') ∧
    writes w' = writes w ++ written ∧
    (∀ m lines, Dict.get m (sections st) = Some lines →
       (section_path m ∈ written ↔ lines ≠ []) ∧
       (lines = [] → files w' !! section_path m = files w !! section_path m) ∧
       (lines ≠ [] →
          files w' !! section_path m = Some (section_content lines)) ∧
       (lines ≠ [] → Forall (Forall (λ c, Py.isspace c = true)) lines →
          files w' !! section_path m = Some [])).
Proof.
  destruct (scan_lines_ok scan_init (Py.splitlines full_text) scan_init_ok)
    as (st & Hst & [Hkeys _]).
  fold (scan_sections full_text) in Hst.
  pose proof (write_sections_run (Dict.items (sections st)) w) as Hrun.
  eexists st, _,
    (List.map section_path (populated (Dict.items (sections st)))).
  split; [done|]. split.
  { unfold save_sections_to_files.
    rewrite (bind_ok _ _ w w st) by (unfold lift; by rewrite Hst).
    exact Hrun. }
  split; [done|].
  intros m lines Hg. simpl.
  assert (Hnd : NoDup (List.map section_path
                         (Dict.keys (Dict.items (sections st))))).
  { unfold Dict.items. rewrite Hkeys. apply section_paths_NoDup. }
  assert (Hndk : NoDup (Dict.keys (sections st))).
  { rewrite Hkeys. apply markers_NoDup. }
  pose proof (dict_get_elem_of _ _ _ Hg) as Hin.
  pose proof (saved_files_lookup _ (files w) m lines Hnd Hin) as Hlook.
  assert (Hfile : lines ≠ [] →
    saved_files (Dict.items (sections st)) (files w) !! section_path m
    = Some (section_content lines)).
  { intros Hne. rewrite Hlook. by destruct lines. }
  split; [|split; [|split]].
  + split.
    * intros Hp. apply list_elem_of_fmap in Hp as (m' & Heq & Hm').
      apply populated_elem_of in Hm' as (lines' & Hin' & Hne').
      assert (m' = m) as ->.
      { pose proof (dict_elem_of_get _ _ _ Hndk Hin') as Hg'.
        assert (Hmk : ∀ k v, Dict.get k (sections st) = Some v →
                             k ∈ markers).
        { intros k v Hk. rewrite <- Hkeys.
          apply dict_get_is_Some. by eexists. }
        apply (NoDup_map_inj section_path markers);
          [apply section_paths_NoDup| | |done]; by eapply Hmk. }
      pose proof (dict_elem_of_get _ _ _ Hndk Hin') as Hg'.
      congruence.
    * intros Hne. apply list_elem_of_fmap. exists m. split; [done|].
      apply populated_elem_of. by exists lines.
  + intros ->. exact Hlook.
  + exact Hfile.
  + intros Hne Hblank. rewrite (Hfile Hne).
    by rewrite section_content_blank.
Qed.

Lemma section_omitted_iff_no_lines_witness :
  ∃ st w' written,
    scan_sections c10_text = Ok st ∧
    @save_sections_to_files demo_library c10_text (World ∅ [] []) = (Ok tt, w')
    ∧ writes w' = written ∧
    Dict.get (u "[KEYNOTE SPEECH]") (sections st) = Some [u "   "; []] ∧
    @section_path demo_library (u "[KEYNOTE SPEECH]") ∈ written ∧
    files w' !! @section_path demo_library (u "[KEYNOTE SPEECH]") = Some [] ∧
    Dict.get (u "[LINKEDIN POST]") (sections st) = Some [] ∧
    files w' !! @section_path demo_library (u "[LINKEDIN POST]") = None.
Proof.
  destruct (@section_omitted_iff_no_lines demo_library c10_text
              (World ∅ [] []))
    as (st & w' & written & Hst & Hrun & Hw & Hsec).
  exists st, w', written.
  assert (Hs : st = ScanState
            [(u "[KEYNOTE SPEECH]", [u "   "; []]); (u "[LINKEDIN POST]", []);
             (u "[YOUTUBE SCRIPT]", []); (u "[SLIDE OUTLINE]", [u " Hello "])]
            (Some (u "[SLIDE OUTLINE]"))).
  { vm_compute in Hst. by injection Hst. }
  assert (Hk : Dict.get (u "[KEYNOTE SPEECH]") (sections st)
               = Some [u "   "; []]) by (by rewrite Hs).
  assert (Hl : Dict.get (u "[LINKEDIN POST]") (sections st) = Some [])
    by (by rewrite Hs).
  destruct (Hsec _ _ Hk) as (Hkw & _ & _ & Hkblank).
  destruct (Hsec _ _ Hl) as (_ & Hlsame & _ & _).
  split; [exact Hst|]. split; [exact Hrun|]. split; [exact Hw|].
  split; [exact Hk|]. split; [|split; [|split; [exact Hl|]]].
  - apply Hkw. discriminate.
  - apply Hkblank; [discriminate|].
    repeat constructor.
  - rewrite (Hlsame eq_refl). reflexivity.
Defined.

(** ** Facts about [lstrip], [strip], [in] and [split] *)

Lemma lstrip_by_split (p : char → bool) (s : str) :
  ∃ run, s = run ++ Py.lstrip_by p s ∧ Forall (λ c, p c = true) run.
Proof.
  induction s as [|c s (run & Hs & Hrun)]; simpl.
  - by exists [].
  - destruct (p c) eqn:Hc.
    + exists (c :: run). split; [by rewrite <- app_comm_cons, <- Hs|].
      by constructor.
    + by exists [].
Qed.

Lemma lstrip_by_head (p : char → bool) (s : str) (c : char) (t : str) :
  Py.lstrip_by p s = c :: t → p c = false.
Proof.
  induction s as [|d s IH]; simpl; [done|].
  destruct (p d) eqn:Hd; [done|]. by intros [= <- _].
Qed.

Lemma lstrip_by_nil_inv (p : char → bool) (s : str) :
  Py.lstrip_by p s = [] → Forall (λ c, p c = true) s.
Proof.
  induction s as [|c s IH]; simpl; [constructor|].
  destruct (p c) eqn:Hc; [|done]. intros Hs. constructor; auto.
Qed.

Lemma lstrip_by_snoc_stop (p : char → bool) (s : str) (c : char) :
  p c = false → Py.lstrip_by p (s ++ [c]) = Py.lstrip_by p s ++ [c].
Proof.
  intros Hc. induction s as [|d s IH]; simpl; [by rewrite Hc|].
  by destruct (p d).
Qed.

Lemma strip_by_head (p : char → bool) (s : str) (c : char) (t : str) :
  Py.strip_by p s = c :: t → p c = false.
Proof.
  unfold Py.strip_by, Py.rstrip_by.
  destruct (Py.lstrip_by p s) as [|c0 a] eqn:Ha; [done|].
  pose proof (lstrip_by_head p s c0 a Ha) as Hc0.
  simpl. rewrite lstrip_by_snoc_stop by done.
  rewrite rev_app_distr. simpl. by intros [= <- _].
Qed.

Lemma strip_by_nil_inv (p : char → bool) (s : str) :
  Py.strip_by p s = [] → Forall (λ c, p c = true) s.
Proof.
  unfold Py.strip_by, Py.rstrip_by. intros Hs.
  destruct (lstrip_by_split p s) as (run & Heq & Hrun).
  rewrite Heq. apply Forall_app. split; [done|].
  apply (f_equal (@rev _)) in Hs. rewrite rev_involutive in Hs. simpl in Hs.
  apply lstrip_by_nil_inv in Hs. apply Forall_rev in Hs.
  by rewrite rev_involutive in Hs.
Qed.

Lemma mem_true (c : char) (chars : str) : Py.mem c chars = true ↔ c ∈ chars.
Proof.
  unfold Py.mem. rewrite List.existsb_exists. split.
  - intros (x & Hin & Heq). apply N.eqb_eq in Heq as ->.
    by apply list_elem_of_In.
  - intros Hin. exists c. split; [by apply list_elem_of_In|].
    apply N.eqb_refl.
Qed.

Lemma contains_char (c : char) (s : str) :
  Py.contains [c] s = true ↔ c ∈ s.
Proof.
  induction s as [|d s IH]; simpl.
  - split; [done | by intros ?%elem_of_nil].
  - rewrite orb_true_iff, andb_true_r, N.eqb_eq, IH, elem_of_cons.
    done.
Qed.

Lemma split_go_no_cut (sep s : str) : Py.split_go sep 0 0 s = [s].
Proof. by destruct s. Qed.

(** [s.split(c, 1)] cuts at the first occurrence of the character. *)
Lemma split_char_once (c : char) (s : str) :
  c ∈ s →
  ∃ before after, s = before ++ (c :: after) ∧ (c ∉ before) ∧
    Py.split [c] (Some 1%nat) s = [before; after].
Proof.
  unfold Py.split. simpl.
  induction s as [|d s IH]; [by intros ?%elem_of_nil|].
  intros Hin. simpl. rewrite andb_true_r.
  destruct (c =? d) eqn:Hcd.
  - apply N.eqb_eq in Hcd as <-.
    exists [], s. split; [done|]. split; [by intros ?%elem_of_nil|].
    by rewrite split_go_no_cut.
  - apply N.eqb_neq in Hcd.
    apply elem_of_cons in Hin as [?|Hin]; [done|].
    destruct (IH Hin) as (before & after & Hs & Hfirst & Hsplit).
    exists (d :: before), after. split; [by rewrite Hs|].
    split; [by intros [?|?]%elem_of_cons|].
    by rewrite Hsplit.
Qed.

Lemma slide_title_of_spec (raw_title : str) :
  ∃ title, slide_title_of raw_title = Ok title ∧
    ((∃ before after, raw_title = before ++ (COLON :: after) ∧
        (COLON ∉ before) ∧ title = Py.strip after)
     ∨ ((COLON ∉ raw_title) ∧ title = raw_title)).
Proof.
  unfold slide_title_of.
  destruct (Py.contains [COLON] raw_title) eqn:Hc.
  - apply contains_char in Hc.
    destruct (split_char_once COLON raw_title Hc)
      as (before & after & Hs & Hfirst & Hsplit).
    rewrite Hsplit. simpl. exists (Py.strip after).
    split; [done|]. left. by exists before, after.
  - exists raw_title. split; [done|]. right. split; [|done].
    intros Hin. apply contains_char in Hin. congruence.
Qed.

Lemma fill_body_from (bullet_lines body : list str) (first : bool) :
  (first = true → body = []) →
  fst (fold_left add_bullet bullet_lines (body, first))
  = body ++ List.filter Py.truthy bullet_lines.
Proof.
  revert body first.
  induction bullet_lines as [|b bl IH]; intros body first Hfirst; simpl.
  - by rewrite app_nil_r.
  - destruct (Py.truthy b); simpl.
    + destruct first.
      * rewrite IH by done. by rewrite Hfirst.
      * rewrite IH by done. by rewrite <- app_assoc.
    + by apply IH.
Qed.

Lemma fill_body_filter (bullet_lines : list str) :
  fill_body bullet_lines = List.filter Py.truthy bullet_lines.
Proof. unfold fill_body. by rewrite fill_body_from. Qed.

Lemma add_block_slide_spec (prs : list slide) (block raw_title : str)
    (rest : list str) :
  block_lines block = raw_title :: rest →
  ∃ title, slide_title_of raw_title = Ok title ∧
    add_block_slide prs block
    = Ok (prs ++ [Slide title (List.filter Py.truthy (bullet_lines_of rest))]).
Proof.
  intros Hlines. unfold add_block_slide. rewrite Hlines.
  destruct (slide_title_of_spec raw_title) as (title & Ht & _).
  exists title. split; [done|]. rewrite Ht. simpl.
  by rewrite fill_body_filter.
Qed.

(** C5.  A block whose first trimmed line is [raw_title] adds one slide;
    its title is what follows the first colon of [raw_title], trimmed, when
    there is a colon, and [raw_title] itself otherwise.  The block
    [Slide 2: Benefits] gets the title [Benefits]. *)
Theorem slide_title_after_first_colon :
  (∀ (prs : list slide) (block raw_title : str) (rest : list str),
     block_lines block = raw_title :: rest →
     ∃ title body,
       add_block_slide prs block = Ok (prs ++ [Slide title body]) ∧
       ((∃ before after, raw_title = before ++ (COLON :: after) ∧
           (COLON ∉ before) ∧ title = Py.strip after)
        ∨ ((COLON ∉ raw_title) ∧ title = raw_title))) ∧
  (∀ prs, add_block_slide prs (u "Slide 2: Benefits")
          = Ok (prs ++ [Slide (u "Benefits") []])).
Proof.
  split; [|done].
  intros prs block raw_title rest Hlines.
  destruct (add_block_slide_spec prs block raw_title rest Hlines)
    as (title & Ht & Hadd).
  destruct (slide_title_of_spec raw_title) as (title' & Ht' & Hcases).
  assert (title' = title) as -> by congruence.
  by eexists title, _.
Qed.

Lemma slide_title_after_first_colon_witness :
  ∃ title body,
    add_block_slide [] c5_block = Ok ([] ++ [Slide title body]) ∧
    ((∃ before after,
        u "Slide 3: Costs: up or down?" = before ++ (COLON :: after) ∧
        (COLON ∉ before) ∧ title = Py.strip after)
     ∨ ((COLON ∉ u "Slide 3: Costs: up or down?") ∧
        title = u "Slide 3: Costs: up or down?")).
Proof.
  apply (proj1 slide_title_after_first_colon [] c5_block
           (u "Slide 3: Costs: up or down?") [u "- Down"]).
  reflexivity.
Defined.

(** ** Blocks and their lines *)

Lemma linebreak_is_space (c : char) :
  Py.islinebreak c = true → Py.isspace c = true.
Proof.
  unfold Py.islinebreak, Py.isspace.
  rewrite !orb_true_iff, !andb_true_iff, !N.leb_le, !N.eqb_eq. lia.
Qed.

Lemma has_text_strip (s : str) : has_text s → Py.truthy (Py.strip s) = true.
Proof.
  intros (c & Hin & Hc). destruct (Py.strip s) eqn:Hs; [|done].
  apply strip_by_nil_inv in Hs. rewrite Forall_forall in Hs.
  specialize (Hs c Hin). simpl in Hs. congruence.
Qed.

Lemma elem_of_rev_2 {A : Type} (x : A) (l : list A) : x ∈ l → x ∈ rev l.
Proof. rewrite !list_elem_of_In. apply List.in_rev. Qed.

Lemma splitlines_go_head (cur s : str) :
  has_text cur →
  ∃ l ls, Py.splitlines_go cur s = l :: ls ∧ has_text l.
Proof.
  revert cur. induction s as [|d s IH]; intros cur Hcur; simpl.
  - destruct cur as [|c0 cur'].
    + by destruct Hcur as (c & ?%elem_of_nil & _).
    + exists (rev (c0 :: cur')), []. split; [done|].
      destruct Hcur as (c & Hin & Hsp). exists c. split; [|done].
      by apply elem_of_rev_2.
  - destruct (Py.islinebreak d).
    + eexists (rev cur), _. split; [done|].
      destruct Hcur as (c & Hin & Hsp). exists c. split; [|done].
      by apply elem_of_rev_2.
    + apply IH. destruct Hcur as (c & Hin & Hsp). exists c.
      split; [by apply elem_of_cons; right | done].
Qed.

Lemma block_lines_head (c : char) (t : str) :
  Py.isspace c = false →
  ∃ raw_title rest, block_lines (c :: t) = raw_title :: rest.
Proof.
  intros Hc. unfold block_lines, Py.splitlines. simpl.
  destruct (Py.islinebreak c) eqn:Hlb.
  { apply linebreak_is_space in Hlb. congruence. }
  destruct (splitlines_go_head [c] t) as (l & ls & -> & Hl).
  { exists c. split; [by apply elem_of_cons; left | done]. }
  simpl. rewrite (has_text_strip l Hl). simpl. by eexists _, _.
Qed.

Lemma outline_blocks_head (text block : str) :
  block ∈ outline_blocks text →
  ∃ c t, block = c :: t ∧ Py.isspace c = false.
Proof.
  unfold outline_blocks. intros Hin.
  apply list_elem_of_fmap in Hin as (b & -> & Hb).
  apply list_elem_of_In, List.filter_In in Hb as [_ Hb].
  destruct (Py.strip b) as [|c t] eqn:Hs; [done|].
  exists c, t. split; [done|]. by eapply strip_by_head.
Qed.

Lemma outline_block_has_title (text block : str) :
  block ∈ outline_blocks text →
  ∃ raw_title rest, block_lines block = raw_title :: rest.
Proof.
  intros (c & t & -> & Hc)%outline_blocks_head. by apply block_lines_head.
Qed.

Lemma build_presentation_from (blocks : list str) (prs : list slide) :
  Forall (λ b, ∃ raw_title rest, block_lines b = raw_title :: rest) blocks →
  ∃ slides, for_fold add_block_slide prs blocks = Ok (prs ++ slides) ∧
    length slides = length blocks.
Proof.
  intros Hb. revert prs.
  induction Hb as [|b blocks (raw & rest & Hlines) _ IH]; intros prs.
  - exists []. by rewrite app_nil_r.
  - destruct (add_block_slide_spec prs b raw rest Hlines) as (title & _ & Ha).
    destruct (IH (prs ++ [Slide title (List.filter Py.truthy
                                         (bullet_lines_of rest))]))
      as (slides & Hs & Hlen).
    eexists (_ :: slides). simpl. rewrite Ha. simpl. rewrite Hs.
    split; [by rewrite <- app_assoc | by rewrite Hlen].
Qed.

(** C6.  The body of the slide of a block holds, in order, the lines after
    the first one, each without its leading run of hyphens, bullet dots and
    spaces and then trimmed, except those that become empty; when all of
    them become empty the slide is added all the same, with its title
    only.  The line [- Fast] gives [Fast], and a text gives as many slides
    as it has blocks. *)
Theorem bullets_strip_leading_glyphs :
  (∀ (prs : list slide) (block raw_title : str) (rest : list str),
     block_lines block = raw_title :: rest →
     ∃ title,
       add_block_slide prs block
       = Ok (prs ++ [Slide title (List.filter Py.truthy
                                    (bullet_lines_of rest))]) ∧
       (Forall (λ l, Py.strip (Py.lstrip_chars bullet_glyphs l) = []) rest →
        add_block_slide prs block = Ok (prs ++ [Slide title []]))) ∧
  (∀ l : str, ∃ run,
     l = run ++ Py.lstrip_chars bullet_glyphs l ∧
     Forall (λ c, c = HYPHEN ∨ c = BULLET ∨ c = SPACE) run ∧
     ∀ c t, Py.lstrip_chars bullet_glyphs l = c :: t →
            c ≠ HYPHEN ∧ c ≠ BULLET ∧ c ≠ SPACE) ∧
  bullet_lines_of [u "- Fast"] = [u "Fast"] ∧
  (∀ text : str, ∃ slides,
     build_presentation (outline_blocks text) = Ok slides ∧
     length slides = length (outline_blocks text)).
Proof.
  split; [|split; [|split; [done|]]].
  - intros prs block raw_title rest Hlines.
    destruct (add_block_slide_spec prs block raw_title rest Hlines)
      as (title & _ & Hadd).
    exists title. split; [done|]. intros Hall. rewrite Hadd.
    do 3 f_equal. clear Hadd Hlines.
    induction Hall as [|l rest Hl _ IH]; [done|].
    simpl. by rewrite Hl.
  - intros l. unfold Py.lstrip_chars.
    destruct (lstrip_by_split (λ c, Py.mem c bullet_glyphs) l)
      as (run & Hl & Hrun).
    assert (Hglyph : ∀ c, Py.mem c bullet_glyphs = true ↔
                          c = HYPHEN ∨ c = BULLET ∨ c = SPACE).
    { intros c. rewrite mem_true. unfold bullet_glyphs.
      rewrite !elem_of_cons, elem_of_nil. tauto. }
    exists run. split; [done|]. split.
    + eapply Forall_impl; [exact Hrun|]. intros c. apply Hglyph.
    + intros c t Hct. apply lstrip_by_head in Hct.
      assert (Hn : ¬ (c = HYPHEN ∨ c = BULLET ∨ c = SPACE)).
      { rewrite <- Hglyph. congruence. }
      tauto.
  - intros text.
    destruct (build_presentation_from (outline_blocks text) [])
      as (slides & Hs & Hlen); [|by exists slides].
    apply Forall_forall. intros b Hb. by eapply outline_block_has_title.
Qed.

Lemma bullets_strip_leading_glyphs_witness :
  (∃ title, add_block_slide [] c6_block
            = Ok ([] ++ [Slide title [u "Fast"; u "Cheap"]])) ∧
  (∃ title, add_block_slide [] c6_bare_block = Ok ([] ++ [Slide title []])) ∧
  (∀ c t, Py.lstrip_chars bullet_glyphs (u " - -x- ") = c :: t →
          c ≠ HYPHEN ∧ c ≠ BULLET ∧ c ≠ SPACE).
Proof.
  destruct bullets_strip_leading_glyphs as (Hblock & Hrun & _ & _).
  split; [|split].
  - destruct (Hblock [] c6_block (u "Slide 4: Speed")
                [u "- Fast"; [BULLET; SPACE] ++ u "Cheap"; u "- - " ++ [BULLET]]
                eq_refl) as (title & Hadd & _).
    exists title. exact Hadd.
  - destruct (Hblock [] c6_bare_block (u "Only a title") [u "--"] eq_refl)
      as (title & _ & Hbare).
    exists title. apply Hbare. repeat constructor.
  - destruct (Hrun (u " - -x- ")) as (run & _ & _ & Hhead). exact Hhead.
Defined.

(** ** Facts about [split] and [join] *)

Lemma split_go_nonempty (sep : str) (n skip : nat) (s : str) :
  Py.split_go sep n skip s ≠ [].
Proof.
  revert n skip. induction s as [|c s IH]; intros n skip; simpl; [done|].
  destruct skip; [|apply IH]. destruct n; [done|].
  destruct (Py.startswith sep (c :: s)); [done|].
  unfold Py.cons_head. by destruct (Py.split_go sep (S n) 0 s).
Qed.

Lemma join_cons (sep p : str) (ps : list str) :
  ps ≠ [] → Py.join sep (p :: ps) = p ++ sep ++ Py.join sep ps.
Proof. by destruct ps. Qed.

Lemma join_cons_head (sep : str) (c : char) (ps : list str) :
  ps ≠ [] → Py.join sep (Py.cons_head c ps) = c :: Py.join sep ps.
Proof. destruct ps as [|p [|q ps]]; done. Qed.

Lemma startswith_drop (sep s : str) :
  Py.startswith sep s = true → s = sep ++ drop (length sep) s.
Proof.
  revert s. induction sep as [|a sep IH]; intros s; simpl; [done|].
  destruct s as [|b s]; [done|].
  rewrite andb_true_iff, N.eqb_eq. intros [-> Hs]. simpl.
  f_equal. by apply IH.
Qed.

Lemma join_split_go (sep : str) (n skip : nat) (s : str) :
  sep ≠ [] → Py.join sep (Py.split_go sep n skip s) = drop skip s.
Proof.
  intros Hsep. revert n skip.
  induction s as [|c s IH]; intros n skip; simpl.
  - by rewrite drop_nil.
  - destruct skip as [|k]; [|apply IH].
    destruct n as [|n]; [done|].
    destruct (Py.startswith sep (c :: s)) eqn:Hstart.
    + rewrite join_cons by apply split_go_nonempty.
      rewrite IH. apply startswith_drop in Hstart.
      destruct sep as [|a sep]; [done|]. simpl in *.
      rewrite Nat.sub_0_r. by injection Hstart as -> <-.
    + rewrite join_cons_head by apply split_go_nonempty.
      by rewrite IH.
Qed.

(** The pieces of a split, joined by the separator, give the text back. *)
Lemma join_split (sep : str) (maxsplit : option nat) (s : str) :
  sep ≠ [] → Py.join sep (Py.split sep maxsplit s) = s.
Proof. intros Hsep. unfold Py.split. by rewrite join_split_go. Qed.

Lemma split_go_Forall (P : char → Prop) (sep : str) (n skip : nat) (s : str) :
  Forall P s → Forall (Forall P) (Py.split_go sep n skip s).
Proof.
  intros Hs. revert n skip.
  induction Hs as [|c s Hc Hs IH]; intros n skip; simpl.
  - by repeat constructor.
  - destruct skip; [|apply IH].
    destruct n; [by repeat constructor|].
    destruct (Py.startswith sep (c :: s)).
    + constructor; [constructor | apply IH].
    + specialize (IH (S n) 0%nat). unfold Py.cons_head.
      destruct (Py.split_go sep (S n) 0 s) as [|p ps].
      * by repeat constructor.
      * apply Forall_cons in IH as [Hp Hps]. by repeat constructor.
Qed.

Lemma join_Forall (P : char → Prop) (sep : str) (parts : list str) :
  Forall P sep → Forall (Forall P) parts → Forall P (Py.join sep parts).
Proof.
  intros Hsep. induction 1 as [|p ps Hp Hps IH]; [constructor|].
  destruct ps as [|q ps]; [done|].
  rewrite join_cons by done. by rewrite !Forall_app.
Qed.

Lemma strip_nil_iff (s : str) : Py.strip s = [] ↔ blank s.
Proof. split; [apply strip_by_nil_inv | apply strip_by_all]. Qed.

Lemma filter_nil_iff {A : Type} (f : A → bool) (l : list A) :
  List.filter f l = [] ↔ Forall (λ x, f x = false) l.
Proof.
  induction l as [|x l IH]; simpl.
  - split; [constructor | done].
  - destruct (f x) eqn:Hx.
    + split; [done|]. intros [? _]%Forall_cons. congruence.
    + rewrite IH. split; [by constructor | by intros [_ ?]%Forall_cons].
Qed.

Lemma outline_blocks_nil_iff (text : str) :
  outline_blocks text = [] ↔ blank text.
Proof.
  unfold outline_blocks. split.
  - intros Hnil. apply fmap_nil_inv in Hnil. apply filter_nil_iff in Hnil.
    rewrite <- (join_split [LF; LF] None text) by done.
    apply join_Forall; [by repeat constructor|].
    eapply Forall_impl; [exact Hnil|]. intros piece Hp. simpl in Hp.
    apply strip_nil_iff. by destruct (Py.strip piece).
  - intros Hblank.
    assert (Hnil : List.filter (λ b, Py.truthy (Py.strip b))
                     (Py.split [LF; LF] None text) = []); [|by rewrite Hnil].
    apply filter_nil_iff.
    eapply Forall_impl; [by apply split_go_Forall, Hblank|].
    intros piece Hp. simpl. apply strip_nil_iff in Hp. by rewrite Hp.
Qed.

Lemma universal_newlines_Forall (P : char → Prop) (raw : str) :
  P LF → Forall P raw → Forall P (universal_newlines raw).
Proof.
  intros HLF. remember (length raw) as n eqn:Hn.
  assert (Hle : (length raw ≤ n)%nat) by lia. clear Hn.
  revert raw Hle. induction n as [|n IH]; intros raw Hle Hraw.
  - destruct raw; [constructor | simpl in Hle; lia].
  - destruct Hraw as [|c raw Hc Hraw]; [constructor|].
    simpl in *. destruct (c =? CR).
    + constructor; [done|].
      destruct Hraw as [|d raw Hd Hraw]; [constructor|].
      simpl in Hle. cbv beta iota. destruct (d =? LF).
      * apply IH; [lia | done].
      * apply IH; [simpl; lia | by constructor].
    + constructor; [done|]. apply IH; [lia | done].
Qed.

(** C2.  When there is no file at the outline path, or the file has no
    block (as when it is empty or holds only whitespace),
    [build_slides_from_outline] returns without raising, writes one line
    of diagnostic to the console, opens no file for writing and leaves all
    files, the deck among them, as they were. *)
Theorem no_outline_no_deck `{Library} (outline_path pptx_path : str)
    (w : world) :
  (files w !! outline_path = None →
     build_slides_from_outline outline_path pptx_path w
     = (Ok tt, World (files w) (writes w)
                 (stdout w ++ [missing_outline_message outline_path ++ [LF]])))
  ∧
  (∀ raw, files w !! outline_path = Some raw →
     outline_blocks (universal_newlines raw) = [] →
     build_presentation (outline_blocks (universal_newlines raw)) = Ok [] ∧
     build_slides_from_outline outline_path pptx_path w
     = (Ok tt, World (files w) (writes w)
                 (stdout w ++ [empty_outline_message ++ [LF]])))
  ∧
  (∀ raw, blank raw → outline_blocks (universal_newlines raw) = [])
  ∧
  (∀ text, outline_blocks text = [] ↔ blank text).
Proof.
  split; [|split; [|split]].
  - intros Hmissing. unfold build_slides_from_outline.
    rewrite (bind_ok _ _ w w false); [done|].
    unfold path_exists. rewrite Hmissing.
    by rewrite bool_decide_eq_false_2 by (by intros [? ?]).
  - intros raw Hraw Hempty. split; [by rewrite Hempty|].
    unfold build_slides_from_outline.
    rewrite (bind_ok _ _ w w true).
    + simpl. rewrite (bind_ok _ _ w w (universal_newlines raw)).
      * by rewrite Hempty.
      * unfold read_file. by rewrite Hraw.
    + unfold path_exists. rewrite Hraw.
      by rewrite bool_decide_eq_true_2 by (by eexists).
  - intros raw Hraw. apply outline_blocks_nil_iff.
    by apply universal_newlines_Forall.
  - apply outline_blocks_nil_iff.
Qed.

Lemma no_outline_no_deck_witness :
  let fs : gmap str str := {[ c2_deck_path := c2_old_deck ]} in
  let fs' : gmap str str := <[ c2_outline_path := c2_blank_outline ]> fs in
  @build_slides_from_outline demo_library c2_outline_path c2_deck_path
    (World fs [] [])
  = (Ok tt, World fs [] [missing_outline_message c2_outline_path ++ [LF]])
  ∧
  @build_slides_from_outline demo_library c2_outline_path c2_deck_path
    (World fs' [] [])
  = (Ok tt, World fs' [] [empty_outline_message ++ [LF]]).
Proof.
  intros fs fs'. split.
  - apply (proj1 (@no_outline_no_deck demo_library c2_outline_path
                    c2_deck_path (World fs [] []))).
    reflexivity.
  - apply (proj1 (proj2 (@no_outline_no_deck demo_library c2_outline_path
                           c2_deck_path (World fs' [] [])))
             c2_blank_outline).
    + reflexivity.
    + reflexivity.
Defined.

(** ** [split] as a recursion on the text *)

Lemma split_go_skip (sep : str) (n skip : nat) (s : str) :
  Py.split_go sep n skip s = Py.split_go sep n 0 (drop skip s).
Proof.
  revert skip. induction s as [|c s IH]; intros skip.
  - by rewrite drop_nil.
  - destruct skip as [|k]; [done|]. simpl. apply IH.
Qed.

Lemma split_go_enough (sep : str) (n m skip : nat) (s : str) :
  (length s ≤ n)%nat → (length s ≤ m)%nat →
  Py.split_go sep n skip s = Py.split_go sep m skip s.
Proof.
  revert n m skip. induction s as [|c s IH]; intros n m skip Hn Hm; [done|].
  simpl in *. destruct skip as [|k]; [|apply IH; lia].
  destruct n as [|n]; [lia|]. destruct m as [|m]; [lia|].
  destruct (Py.startswith sep (c :: s)).
  - f_equal. apply IH; lia.
  - f_equal. apply IH; lia.
Qed.

Lemma split_nil (sep : str) : Py.split sep None [] = [[]].
Proof. done. Qed.

Lemma split_at_sep (sep s : str) :
  sep ≠ [] → Py.startswith sep s = true →
  Py.split sep None s = [] :: Py.split sep None (drop (length sep) s).
Proof.
  intros Hsep Hstart. unfold Py.split. simpl.
  destruct s as [|c s]; [by destruct sep|].
  simpl. rewrite Hstart. f_equal. rewrite split_go_skip.
  destruct sep as [|a sep]; [done|]. simpl. rewrite Nat.sub_0_r.
  apply split_go_enough; [|done]. rewrite length_drop. lia.
Qed.

Lemma split_no_sep (sep : str) (c : char) (s : str) :
  Py.startswith sep (c :: s) = false →
  Py.split sep None (c :: s) = Py.cons_head c (Py.split sep None s).
Proof.
  intros Hstart. unfold Py.split. simpl. rewrite Hstart. f_equal.
  apply split_go_enough; simpl; lia.
Qed.

Lemma startswith_cons_ne (a c : char) (sep s : str) :
  a ≠ c → Py.startswith (a :: sep) (c :: s) = false.
Proof.
  intros Hac. cbn [Py.startswith]. apply andb_false_iff. left.
  by apply N.eqb_neq.
Qed.

(** ** Lines *)

Lemma text_lines_nonempty (text : str) : text_lines text ≠ [].
Proof. apply split_go_nonempty. Qed.

Lemma text_lines_join (text : str) : Py.join [LF] (text_lines text) = text.
Proof. by apply join_split. Qed.

Lemma text_lines_one_line (text : str) : Forall one_line (text_lines text).
Proof.
  unfold text_lines. induction text as [|c text IH].
  - by repeat constructor.
  - destruct (decide (c = LF)) as [->|Hc].
    + rewrite split_at_sep by done. simpl. rewrite drop_0.
      constructor; [constructor | done].
    + rewrite split_no_sep.
      2:{ by apply startswith_cons_ne. }
      unfold Py.cons_head.
      destruct (Py.split [LF] None text) as [|p ps]; [by repeat constructor|].
      apply Forall_cons in IH as [Hp Hps].
      constructor; [by constructor | done].
Qed.

(** ** Cutting a text of lines at the double newlines *)

Lemma cons_head_prepend (c : char) (a : str) (ps : list str) :
  Py.cons_head c (prepend a ps) = prepend (c :: a) ps.
Proof. by destruct ps. Qed.

Lemma prepend_prepend (a b : str) (ps : list str) :
  prepend a (prepend b ps) = prepend (a ++ b) ps.
Proof. destruct ps; simpl; by rewrite ?app_assoc. Qed.

Lemma split2_line (l x : str) :
  one_line l →
  Py.split [LF; LF] None (l ++ x) = prepend l (Py.split [LF; LF] None x).
Proof.
  induction 1 as [|c l Hc Hl IH]; simpl.
  - pose proof (split_go_nonempty [LF; LF] (length x) 0 x) as Hne.
    unfold Py.split. simpl. by destruct (Py.split_go _ _ _ x).
  - rewrite split_no_sep.
    2:{ by apply startswith_cons_ne. }
    by rewrite IH, cons_head_prepend.
Qed.

Lemma split2_double (x : str) :
  Py.split [LF; LF] None (LF :: LF :: x) = [] :: Py.split [LF; LF] None x.
Proof. by rewrite split_at_sep. Qed.

Lemma split2_single (c : char) (x : str) :
  c ≠ LF →
  Py.split [LF; LF] None (LF :: c :: x)
  = prepend [LF] (Py.split [LF; LF] None (c :: x)).
Proof.
  intros Hc. rewrite split_no_sep.
  - by destruct (Py.split [LF; LF] None (c :: x)).
  - change (Py.startswith [LF; LF] (LF :: c :: x))
      with ((LF =? LF) && Py.startswith [LF] (c :: x)).
    rewrite startswith_cons_ne by congruence. apply andb_false_r.
Qed.

(** ** Trimming a text extended on the right *)

Lemma lstrip_by_app_all (p : char → bool) (b x : str) :
  Forall (λ c, p c = true) b → Py.lstrip_by p (b ++ x) = Py.lstrip_by p x.
Proof. induction 1 as [|c b Hc _ IH]; simpl; [done | by rewrite Hc]. Qed.

Lemma lstrip_by_app_stop (p : char → bool) (a x : str) :
  Py.lstrip_by p a ≠ [] → Py.lstrip_by p (a ++ x) = Py.lstrip_by p a ++ x.
Proof.
  induction a as [|c a IH]; simpl; [done|].
  destruct (p c); [apply IH | done].
Qed.

Lemma lstrip_by_app_congr (p : char → bool) (a b x : str) :
  Py.lstrip_by p a = Py.lstrip_by p b →
  Py.lstrip_by p (a ++ x) = Py.lstrip_by p (b ++ x).
Proof.
  intros Hab. destruct (Py.lstrip_by p a) as [|c t] eqn:Ha.
  - symmetry in Hab. apply lstrip_by_nil_inv in Ha, Hab.
    by rewrite !lstrip_by_app_all.
  - rewrite !lstrip_by_app_stop by congruence. congruence.
Qed.

Lemma strip_app_congr (a b x : str) :
  Py.lstrip_by Py.isspace a = Py.lstrip_by Py.isspace b →
  Py.strip (a ++ x) = Py.strip (b ++ x).
Proof.
  intros Hab. unfold Py.strip, Py.strip_by.
  by rewrite (lstrip_by_app_congr _ a b x Hab).
Qed.

Lemma strip_app_blank (s b : str) : blank b → Py.strip (s ++ b) = Py.strip s.
Proof.
  intros Hb. unfold Py.strip, Py.strip_by, Py.rstrip_by.
  destruct (Py.lstrip_by Py.isspace s) as [|c t] eqn:Hs.
  - apply lstrip_by_nil_inv in Hs.
    rewrite (lstrip_by_all _ (s ++ b)); [done|]. apply Forall_app. by split.
  - rewrite lstrip_by_app_stop by congruence. rewrite Hs, rev_app_distr.
    rewrite (lstrip_by_app_all _ (rev b)); [done|]. by apply Forall_rev.
Qed.

(** ** The blocks kept from a list of pieces *)

Lemma blocks_of_pieces_cons (p : str) (ps : list str) :
  blocks_of_pieces (p :: ps) = blocks_of_pieces [p] ++ blocks_of_pieces ps.
Proof. unfold blocks_of_pieces. simpl. by destruct (Py.truthy _). Qed.

Lemma blocks_of_piece_congr (a b : str) :
  Py.strip a = Py.strip b → blocks_of_pieces [a] = blocks_of_pieces [b].
Proof.
  intros Hab. unfold blocks_of_pieces. cbn [List.filter List.map].
  rewrite Hab. destruct (Py.truthy (Py.strip b)); cbn [List.map]; congruence.
Qed.

Lemma blocks_of_piece_blank (a : str) : blank a → blocks_of_pieces [a] = [].
Proof.
  intros Ha. unfold blocks_of_pieces. cbn [List.filter List.map].
  by rewrite (proj2 (strip_nil_iff a) Ha).
Qed.

Lemma blocks_of_prepend_nil (ps : list str) :
  blocks_of_pieces (prepend [] ps) = blocks_of_pieces ps.
Proof. by destruct ps. Qed.

(** ** Runs of lines *)

Lemma line_runs_nonempty (f : str → bool) (lines : list str) :
  line_runs f lines ≠ [].
Proof.
  induction lines as [|l lines IH]; simpl; [done|].
  destruct (f l); [done|]. by destruct (line_runs f lines).
Qed.

Lemma add_run_nil (runs : list (list str)) : runs ≠ [] → add_run [] runs = runs.
Proof. by destruct runs. Qed.

Lemma join_app (sep : str) (xs ys : list str) :
  xs ≠ [] → ys ≠ [] →
  Py.join sep (xs ++ ys) = Py.join sep xs ++ sep ++ Py.join sep ys.
Proof.
  intros Hxs Hys. induction xs as [|x xs IH]; [done|].
  destruct xs as [|x' xs].
  - simpl app at 1. by rewrite join_cons.
  - rewrite <- app_comm_cons, join_cons by done.
    rewrite IH by done. rewrite (join_cons sep x (x' :: xs)) by done.
    by rewrite <- !app_assoc.
Qed.

Lemma run_prefix_join (run xs : list str) :
  xs ≠ [] → run_prefix run ++ Py.join [LF] xs = Py.join [LF] (run ++ xs).
Proof.
  intros Hxs. destruct run as [|r run]; [done|].
  unfold run_prefix. rewrite join_app by done. by rewrite <- app_assoc.
Qed.

Lemma open_block_piece (acc : str) (run : list str) (l : str) :
  open_block acc run →
  Py.strip (acc ++ l) = Py.strip (Py.join [LF] (run ++ [l])).
Proof.
  intros Hrel. rewrite <- run_prefix_join by done. simpl.
  by apply strip_app_congr.
Qed.

Lemma open_block_blank (acc : str) (run : list str) :
  open_block acc run → blank acc → blank (Py.join [LF] run).
Proof.
  unfold open_block. intros Hrel Hacc.
  rewrite (lstrip_by_all _ _ Hacc) in Hrel. symmetry in Hrel.
  apply lstrip_by_nil_inv in Hrel.
  destruct run as [|r run]; [constructor|].
  unfold run_prefix in Hrel. by apply Forall_app in Hrel as [? _].
Qed.

Lemma open_block_next (acc : str) (run : list str) (l : str) :
  open_block acc run → open_block (acc ++ l ++ [LF]) (run ++ [l]).
Proof.
  unfold open_block. intros Hrel.
  assert (Hp : run_prefix (run ++ [l]) = run_prefix run ++ l ++ [LF]).
  { destruct run as [|r run]; [done|].
    unfold run_prefix. rewrite <- app_comm_cons.
    rewrite app_comm_cons, join_app by done. simpl.
    by rewrite <- !app_assoc. }
  rewrite Hp. by apply lstrip_by_app_congr.
Qed.

Lemma open_block_restart (acc : str) : blank acc → open_block acc [].
Proof. intros Hacc. unfold open_block. by rewrite lstrip_by_all. Qed.

(** The runs of lines, one line further. *)
Lemma runs_at_empty_line (run : list str) (L : list str) :
  blocks_of_pieces
    (List.map (Py.join [LF]) (add_run run (line_runs is_empty_line ([] :: L))))
  = blocks_of_pieces [Py.join [LF] run]
    ++ blocks_of_pieces (List.map (Py.join [LF]) (line_runs is_empty_line L)).
Proof.
  cbn [line_runs is_empty_line Py.truthy negb add_run List.map].
  by rewrite app_nil_r, blocks_of_pieces_cons.
Qed.

Lemma runs_after_empty_line (L : list str) :
  blocks_of_pieces
    (List.map (Py.join [LF]) (line_runs is_empty_line ([] :: L)))
  = blocks_of_pieces (List.map (Py.join [LF]) (line_runs is_empty_line L)).
Proof.
  cbn [line_runs is_empty_line Py.truthy negb List.map].
  by rewrite blocks_of_pieces_cons.
Qed.

Lemma runs_at_text_line (run : list str) (l : str) (L : list str) :
  l ≠ [] →
  add_run run (line_runs is_empty_line (l :: L))
  = add_run (run ++ [l]) (line_runs is_empty_line L).
Proof.
  intros Hl. cbn [line_runs].
  assert (is_empty_line l = false) as -> by (by destruct l).
  pose proof (line_runs_nonempty is_empty_line L) as Hne.
  destruct (line_runs is_empty_line L) as [|r rs]; [done|].
  simpl. by rewrite <- app_assoc.
Qed.

Lemma runs_at_end (run : list str) :
  List.map (Py.join [LF]) (add_run run (line_runs is_empty_line []))
  = [Py.join [LF] run].
Proof. simpl. by rewrite app_nil_r. Qed.

(** The cut at the double newlines, one line further. *)
Lemma cut_last_line (acc l : str) :
  one_line l → prepend acc (Py.split [LF; LF] None (Py.join [LF] [l])) = [acc ++ l].
Proof.
  intros Hl. simpl. rewrite <- (app_nil_r l) at 1.
  rewrite split2_line, split_nil by done. simpl. by rewrite app_nil_r.
Qed.

Lemma cut_trailing_newline (acc l : str) :
  one_line l →
  prepend acc (Py.split [LF; LF] None (Py.join [LF] [l; []]))
  = [acc ++ l ++ [LF]].
Proof.
  intros Hl. simpl. rewrite split2_line by done. reflexivity.
Qed.

Lemma cut_at_empty_line (acc l r : str) (rest : list str) :
  one_line l →
  prepend acc (Py.split [LF; LF] None (Py.join [LF] (l :: [] :: r :: rest)))
  = (acc ++ l) :: Py.split [LF; LF] None (Py.join [LF] (r :: rest)).
Proof.
  intros Hl. rewrite join_cons by done.
  rewrite (join_cons [LF] [] (r :: rest)) by done.
  change ([LF] ++ [] ++ [LF] ++ Py.join [LF] (r :: rest))
    with (LF :: LF :: Py.join [LF] (r :: rest)).
  rewrite split2_line, split2_double by done. simpl.
  by rewrite app_nil_r.
Qed.

Lemma cut_at_text_line (acc l l' : str) (rest : list str) :
  one_line l → one_line l' → l' ≠ [] →
  prepend acc (Py.split [LF; LF] None (Py.join [LF] (l :: l' :: rest)))
  = prepend (acc ++ l ++ [LF])
      (Py.split [LF; LF] None (Py.join [LF] (l' :: rest))).
Proof.
  intros Hl Hl' Hne. rewrite join_cons by done.
  assert (∃ c y, c ≠ LF ∧ Py.join [LF] (l' :: rest) = c :: y)
    as (c & y & Hc & ->).
  { destruct Hl' as [|c t Hc Ht]; [done|].
    destruct rest as [|r rest]; [by exists c, t|].
    rewrite join_cons by done. by eexists c, _. }
  change ([LF] ++ c :: y) with (LF :: c :: y).
  rewrite split2_line, split2_single by done.
  rewrite !prepend_prepend. by rewrite <- app_assoc.
Qed.

(** Cutting the text at its double newlines keeps the same blocks as
    taking the runs of lines between the empty lines. *)
Lemma blocks_agree (n : nat) :
  ∀ (L : list str) (l acc : str) (run : list str),
    (length L ≤ n)%nat → one_line l → Forall one_line L →
    open_block acc run → (l = [] → blank acc) →
    blocks_of_pieces
      (prepend acc (Py.split [LF; LF] None (Py.join [LF] (l :: L))))
    = blocks_of_pieces
        (List.map (Py.join [LF])
           (add_run run (line_runs is_empty_line (l :: L)))).
Proof.
  induction n as [|n IH]; intros L l acc run Hlen Hl HL Hrel Hacc.
  - destruct L; [|simpl in Hlen; lia].
    rewrite cut_last_line by done.
    destruct l as [|c t].
    + rewrite runs_at_empty_line, app_nil_r. simpl (line_runs _ _).
      rewrite !blocks_of_piece_blank; [done| |].
      * apply (open_block_blank acc); auto.
      * auto.
    + rewrite runs_at_text_line, runs_at_end by done.
      apply blocks_of_piece_congr. by apply open_block_piece.
  - destruct L as [|l' rest].
    { apply (IH []); simpl; auto with lia. }
    apply Forall_cons in HL as [Hl' Hrest]. simpl in Hlen.
    destruct l' as [|c' t'].
    + (* the next line is empty *)
      destruct rest as [|r rest].
      * rewrite cut_trailing_newline by done.
        rewrite app_assoc, (blocks_of_piece_congr _ (acc ++ l)).
        2:{ apply strip_app_blank. by repeat constructor. }
        destruct l as [|c t].
        -- rewrite runs_at_empty_line. simpl (line_runs _ _).
           change (blocks_of_pieces (List.map (Py.join [LF]) [[]; []]))
             with (@nil str).
           rewrite (blocks_of_piece_blank (Py.join [LF] run))
             by (apply (open_block_blank acc); auto).
           rewrite app_nil_r. apply blocks_of_piece_blank. auto.
        -- rewrite runs_at_text_line by done.
           rewrite runs_at_empty_line. simpl (line_runs _ _).
           change (blocks_of_pieces (List.map (Py.join [LF]) [[]]))
             with (@nil str).
           rewrite app_nil_r.
           apply blocks_of_piece_congr. by apply open_block_piece.
      * rewrite cut_at_empty_line, blocks_of_pieces_cons by done.
        apply Forall_cons in Hrest as [Hr Hrest]. simpl in Hlen.
        assert (Hnext :
          blocks_of_pieces (Py.split [LF; LF] None (Py.join [LF] (r :: rest)))
          = blocks_of_pieces
              (List.map (Py.join [LF])
                 (line_runs is_empty_line (r :: rest)))).
        { rewrite <- blocks_of_prepend_nil.
          rewrite (IH rest r [] []);
            [|lia|done|done|reflexivity|intros; constructor].
          by rewrite add_run_nil by apply line_runs_nonempty. }
        rewrite Hnext.
        destruct l as [|c t].
        -- rewrite runs_at_empty_line, runs_after_empty_line.
           rewrite (blocks_of_piece_blank (Py.join [LF] run))
             by (apply (open_block_blank acc); auto).
           rewrite app_nil_r.
           by rewrite (blocks_of_piece_blank acc) by auto.
        -- rewrite runs_at_text_line by done.
           rewrite runs_at_empty_line. f_equal.
           apply blocks_of_piece_congr. by apply open_block_piece.
    + (* the next line has text *)
      rewrite cut_at_text_line by done.
      destruct l as [|c t].
      * rewrite runs_at_empty_line.
        rewrite blocks_of_piece_blank
          by (apply (open_block_blank acc); auto).
        rewrite (IH rest (c' :: t') _ []); [|lia|done|done| |done].
        -- by rewrite add_run_nil by apply line_runs_nonempty.
        -- apply open_block_restart. apply Forall_app.
           split; [exact (Hacc eq_refl) | by repeat constructor].
      * rewrite runs_at_text_line by done.
        apply IH; [lia|done|done| |done].
        by apply open_block_next.
Qed.

Lemma outline_blocks_as_runs (text : str) :
  outline_blocks text = spec_blocks_empty_lines text.
Proof.
  pose proof (text_lines_nonempty text) as Hne.
  pose proof (text_lines_one_line text) as Hlines.
  pose proof (text_lines_join text) as Hjoin.
  unfold spec_blocks_empty_lines, blocks_between.
  destruct (text_lines text) as [|l L]; [done|].
  apply Forall_cons in Hlines as [Hl HL].
  change (outline_blocks text)
    with (blocks_of_pieces (Py.split [LF; LF] None text)).
  rewrite <- Hjoin, <- blocks_of_prepend_nil.
  rewrite (blocks_agree (length L) L l [] []);
    [|lia|done|done|reflexivity|intros; constructor].
  by rewrite add_run_nil by apply line_runs_nonempty.
Qed.

(** C1.  The outline format has slides separated by a blank line, but the
    code cuts the text at two newlines in a row only.  On two titles with a
    line of one space between them it keeps one block and builds one slide,
    the second title as a bullet of the first, where the partition at the
    lines that trim to the empty string gives two blocks and two slides. *)
Lemma whitespace_line_does_not_split :
  outline_blocks c1_text = [c1_text] ∧
  spec_blocks c1_text = [u "A"; u "B"] ∧
  outline_blocks c1_text ≠ spec_blocks c1_text ∧
  build_presentation (outline_blocks c1_text) = Ok [Slide (u "A") [u "B"]] ∧
  build_presentation (spec_blocks c1_text)
  = Ok [Slide (u "A") []; Slide (u "B") []].
Proof.
  split; [reflexivity|]. split; [reflexivity|].
  split; [|split; reflexivity].
  intros Heq. vm_compute in Heq. discriminate Heq.
Qed.

(** * Further properties *)

(** ** [save_sections_to_files] as a whole *)

Lemma save_sections_run `{Library} (full_text : str) (w : world) :
  ∃ st, scan_sections full_text = Ok st ∧ Dict.keys (sections st) = markers ∧
    save_sections_to_files full_text w
    = (Ok tt,
       World (saved_files (sections st) (files w))
             (writes w ++ List.map section_path (populated (sections st)))
             (stdout w ++ List.map saved_message (populated (sections st)))).
Proof.
  destruct (scan_lines_ok scan_init (Py.splitlines full_text) scan_init_ok)
    as (st & Hst & [Hkeys _]).
  fold (scan_sections full_text) in Hst.
  exists st. split; [done|]. split; [done|].
  unfold save_sections_to_files.
  rewrite (bind_ok _ _ w w st) by (unfold lift; by rewrite Hst).
  apply write_sections_run.
Qed.

Lemma populated_sublist (items : list (str * list str)) :
  sublist (populated items) (Dict.keys items).
Proof.
  unfold populated, Dict.keys.
  induction items as [|[m lines] items IH]; [constructor|].
  cbn [List.filter List.map]. destruct lines; cbn [snd List.map fst].
  - by apply sublist_cons.
  - by apply sublist_skip.
Qed.

Lemma saved_files_unwritten `{Library} (items : list (str * list str))
    (fs : gmap str str) (p : str) :
  p ∉ List.map section_path (populated items) →
  saved_files items fs !! p = fs !! p.
Proof.
  revert fs. induction items as [|[m lines] items IH]; intros fs Hp; [done|].
  unfold saved_files in *. cbn [fold_left snd fst].
  destruct lines as [|l lines].
  - by apply IH.
  - unfold populated in Hp. cbn [List.filter snd List.map fst] in Hp.
    apply not_elem_of_cons in Hp as [Hne Hp].
    rewrite IH by done. by rewrite lookup_insert_ne.
Qed.

(** X1.  A text without marker line gives no output at all: no file is
    written, nothing is printed, the world is as before. *)
Theorem no_marker_no_output `{Library} (full_text : str) (w : world) :
  Forall (λ l, Py.strip l ∉ markers) (Py.splitlines full_text) →
  save_sections_to_files full_text w = (Ok tt, w).
Proof.
  intros Hnone.
  destruct (save_sections_run full_text w) as (st & Hst & _ & Hrun).
  unfold scan_sections in Hst.
  rewrite (scan_lines_unset scan_init _ eq_refl Hnone) in Hst.
  injection Hst as <-. rewrite Hrun.
  change (saved_files (sections scan_init) (files w)) with (files w).
  change (populated (sections scan_init)) with (@nil str).
  destruct w. simpl. by rewrite !app_nil_r.
Qed.

Lemma no_marker_no_output_witness :
  @save_sections_to_files demo_library x_plain_text
    (World {[ u "notes.txt" := u "old" ]} [] [u "hello"])
  = (Ok tt, World {[ u "notes.txt" := u "old" ]} [] [u "hello"]).
Proof.
  apply (@no_marker_no_output demo_library).
  repeat constructor; apply (bool_decide_unpack _); vm_compute; exact I.
Defined.

(** X2.  The section files are written, and reported on the console, in
    the order of the marker list and each at most once, whatever the order
    of the sections in the text; each written file exists afterwards, and
    every other file is as before. *)
Theorem sections_written_in_marker_order `{Library} (full_text : str)
    (w : world) :
  ∃ st w',
    scan_sections full_text = Ok st ∧
    save_sections_to_files full_text w = (Ok tt, w') ∧
    sublist (populated (sections st)) markers ∧
    writes w' = writes w ++ List.map section_path (populated (sections st)) ∧
    stdout w' = stdout w ++ List.map saved_message (populated (sections st)) ∧
    (∀ m, m ∈ populated (sections st) →
       is_Some (files w' !! section_path m)) ∧
    (∀ p, p ∉ List.map section_path (populated (sections st)) →
       files w' !! p = files w !! p).
Proof.
  destruct (save_sections_run full_text w) as (st & Hst & Hkeys & Hrun).
  eexists st, _. split; [exact Hst|]. split; [exact Hrun|]. simpl.
  split; [|split; [done|split; [done|split]]].
  - rewrite <- Hkeys. apply populated_sublist.
  - intros m Hm. apply populated_elem_of in Hm as (lines & Hin & Hne).
    rewrite (saved_files_lookup _ _ m lines); [by destruct lines| |done].
    rewrite Hkeys. apply section_paths_NoDup.
  - intros p Hp. by apply saved_files_unwritten.
Qed.

Lemma sections_written_in_marker_order_witness :
  ∃ w',
    @save_sections_to_files demo_library x_shuffled_text
      (World {[ u "notes.txt" := u "old" ]} [] []) = (Ok tt, w') ∧
    writes w' = [u "content_output/keynote_speech.txt";
                 u "content_output/slide_outline.txt"] ∧
    is_Some (files w' !! u "content_output/slide_outline.txt") ∧
    files w' !! u "notes.txt" = Some (u "old").
Proof.
  destruct (@sections_written_in_marker_order demo_library x_shuffled_text
              (World {[ u "notes.txt" := u "old" ]} [] []))
    as (st & w' & Hst & Hrun & _ & Hw & _ & Hsome & Hframe).
  assert (Hp : populated (sections st)
               = [u "[KEYNOTE SPEECH]"; u "[SLIDE OUTLINE]"]).
  { vm_compute in Hst. injection Hst as <-. reflexivity. }
  rewrite Hp in Hw, Hsome, Hframe.
  exists w'. split; [exact Hrun|]. split; [exact Hw|]. split.
  - apply (Hsome (u "[SLIDE OUTLINE]")).
    apply (bool_decide_unpack _). vm_compute. exact I.
  - rewrite (Hframe (u "notes.txt")); [reflexivity|].
    apply (bool_decide_unpack _). vm_compute. exact I.
Defined.

(** ** No line of a section is lost or counted twice *)

Lemma collected_total_set (k : str) (v old : list str)
    (d : Dict.t (list str)) :
  Dict.get k d = Some old →
  (collected_total (Dict.set k v d) + length old
   = collected_total d + length v)%nat.
Proof.
  unfold collected_total.
  induction d as [|[k' v'] d IH]; simpl; [done|].
  destruct (decide (k = k')) as [->|Hne]; simpl.
  - intros [= ->]. lia.
  - intros Hg. specialize (IH Hg). lia.
Qed.

Lemma scan_lines_count (st : scan_state) (lines : list str) :
  cursor_ok st →
  ∃ st', scan_lines st lines = Ok st' ∧
    collected_total (sections st')
    = (collected_total (sections st)
       + length (List.filter (λ l, negb (is_marker_line l))
                   (match current st with
                    | Some _ => lines
                    | None => from_first_marker lines
                    end)))%nat.
Proof.
  revert st. induction lines as [|l lines IH]; intros st Hok.
  - exists st. split; [done|]. destruct (current st); simpl; lia.
  - assert (Hstep : ∀ st1, scan_line st l = Ok st1 → cursor_ok st1 →
      ∀ k, (collected_total (sections st1)
            + length (List.filter (λ l, negb (is_marker_line l))
                        (match current st1 with
                         | Some _ => lines
                         | None => from_first_marker lines
                         end)) = k)%nat →
      ∃ st', scan_lines st (l :: lines) = Ok st' ∧
             collected_total (sections st') = k).
    { intros st1 Hst1 Hok1 k Hk.
      destruct (IH st1 Hok1) as (st' & Hst' & Htot).
      exists st'. split; [|lia].
      unfold scan_lines in *. simpl. by rewrite Hst1. }
    destruct (scan_line_ok st l Hok) as (st1 & Hst1 & Hok1).
    apply (Hstep st1 Hst1 Hok1).
    destruct (is_marker_line l) eqn:Hl.
    + rewrite (scan_line_marker st l Hl) in Hst1. injection Hst1 as <-.
      cbn [sections current]. destruct (current st); simpl; by rewrite Hl.
    + destruct (current st) as [cur|] eqn:Hc.
      * destruct Hok as [_ Hcur]. rewrite Hc in Hcur.
        destruct Hcur as [Hm [old Hg]].
        rewrite (scan_line_content st l cur old Hl Hc Hm Hg) in Hst1.
        injection Hst1 as <-. cbn [sections current].
        pose proof (collected_total_set cur (old ++ [l]) old _ Hg) as Hset.
        rewrite length_app in Hset. simpl in *. rewrite Hl. simpl. lia.
      * rewrite (scan_line_unset st l Hl Hc) in Hst1. injection Hst1 as <-.
        rewrite Hc. simpl. by rewrite Hl.
Qed.

(** X3.  The buckets together hold as many lines as the text has lines
    behind its first marker line that are not marker lines: no such line is
    dropped and none is collected twice. *)
Theorem every_content_line_in_one_bucket (full_text : str) :
  ∃ st, scan_sections full_text = Ok st ∧
    collected_total (sections st)
    = length (List.filter (λ l, negb (is_marker_line l))
                (from_first_marker (Py.splitlines full_text))).
Proof.
  destruct (scan_lines_count scan_init (Py.splitlines full_text) scan_init_ok)
    as (st & Hst & Htot).
  exists st. split; [exact Hst|]. exact Htot.
Qed.

(** ** Running [save_sections_to_files] again *)

Lemma saved_files_again `{Library} (items : list (str * list str))
    (fs : gmap str str) :
  NoDup (List.map section_path (Dict.keys items)) →
  saved_files items (saved_files items fs) = saved_files items fs.
Proof.
  intros Hnd. apply map_eq. intros p.
  destruct (decide (p ∈ List.map section_path (populated items)))
    as [Hin|Hout].
  - apply list_elem_of_fmap in Hin as (m & -> & Hm).
    apply populated_elem_of in Hm as (lines & Hin & Hne).
    rewrite !(saved_files_lookup _ _ m lines) by done. by destruct lines.
  - by rewrite saved_files_unwritten.
Qed.

(** X4.  Saving the sections of the same text a second time succeeds and
    leaves every file as the first run left it. *)
Theorem save_sections_twice `{Library} (full_text : str) (w : world) :
  ∃ w1 w2,
    save_sections_to_files full_text w = (Ok tt, w1) ∧
    save_sections_to_files full_text w1 = (Ok tt, w2) ∧
    files w2 = files w1.
Proof.
  destruct (save_sections_run full_text w) as (st & Hst & Hkeys & Hrun).
  eexists _, _. split; [exact Hrun|].
  destruct (save_sections_run full_text
              (World (saved_files (sections st) (files w))
                 (writes w ++ List.map section_path (populated (sections st)))
                 (stdout w ++ List.map saved_message
                                 (populated (sections st)))))
    as (st' & Hst' & _ & Hrun').
  assert (st' = st) as -> by congruence.
  split; [exact Hrun'|]. simpl. apply saved_files_again.
  rewrite Hkeys. apply section_paths_NoDup.
Qed.

(** ** Lines have no line boundary, trimmed text stays trimmed *)

Lemma splitlines_go_no_linebreak (n : nat) :
  ∀ cur s, (length s ≤ n)%nat → no_linebreak cur →
    Forall no_linebreak (Py.splitlines_go cur s).
Proof.
  induction n as [|n IH]; intros cur s Hlen Hcur.
  - destruct s; [|simpl in Hlen; lia]. simpl.
    destruct cur; [constructor|]. repeat constructor. by apply Forall_rev.
  - destruct s as [|c s]; simpl in *.
    + destruct cur; [constructor|]. repeat constructor. by apply Forall_rev.
    + destruct (Py.islinebreak c) eqn:Hc.
      * constructor; [by apply Forall_rev|].
        destruct s as [|d s]; [apply IH; [simpl; lia | constructor]|].
        simpl in Hlen.
        destruct ((c =? CR) && (d =? LF));
          apply IH; simpl; try lia; constructor.
      * apply IH; [lia|]. by constructor.
Qed.

Lemma splitlines_no_linebreak (s : str) :
  Forall no_linebreak (Py.splitlines s).
Proof. by apply (splitlines_go_no_linebreak (length s)); [|constructor]. Qed.

Lemma lstrip_by_Forall (P : char → Prop) (p : char → bool) (s : str) :
  Forall P s → Forall P (Py.lstrip_by p s).
Proof.
  induction 1 as [|c s Hc Hs IH]; simpl; [constructor|].
  destruct (p c); [done | by constructor].
Qed.

Lemma strip_by_Forall (P : char → Prop) (p : char → bool) (s : str) :
  Forall P s → Forall P (Py.strip_by p s).
Proof.
  intros Hs. unfold Py.strip_by, Py.rstrip_by.
  by apply Forall_rev, lstrip_by_Forall, Forall_rev, lstrip_by_Forall.
Qed.

Lemma lstrip_by_stopped (p : char → bool) (s : str) :
  (∀ c t, s = c :: t → p c = false) → Py.lstrip_by p s = s.
Proof.
  destruct s as [|c t]; [done|]. intros Hs. simpl.
  by rewrite (Hs c t eq_refl).
Qed.

(** [strip] does nothing to a text it has produced. *)
Lemma strip_by_idem (p : char → bool) (s : str) :
  Py.strip_by p (Py.strip_by p s) = Py.strip_by p s.
Proof.
  assert (Hl : Py.lstrip_by p (Py.strip_by p s) = Py.strip_by p s).
  { apply lstrip_by_stopped. intros c t. apply strip_by_head. }
  unfold Py.strip_by at 1. rewrite Hl.
  unfold Py.strip_by, Py.rstrip_by. rewrite rev_involutive.
  rewrite (lstrip_by_stopped p (Py.lstrip_by p _)); [done|].
  intros c t. apply lstrip_by_head.
Qed.

Lemma strip_trimmed (s : str) : trimmed (Py.strip s).
Proof. apply strip_by_idem. Qed.

Lemma universal_newlines_id (s : str) :
  Forall (λ c, c ≠ CR) s → universal_newlines s = s.
Proof.
  induction 1 as [|c s Hc Hs IH]; [done|]. simpl.
  apply N.eqb_neq in Hc. by rewrite Hc, IH.
Qed.

Lemma no_linebreak_no_CR (s : str) : no_linebreak s → Forall (λ c, c ≠ CR) s.
Proof.
  intros Hs. eapply Forall_impl; [exact Hs|].
  intros c Hc ->. by vm_compute in Hc.
Qed.

Lemma sublist_Forall_2 {A : Type} (P : A → Prop) (l k : list A) :
  sublist l k → Forall P k → Forall P l.
Proof.
  induction 1 as [|x l k _ IH|x l k _ IH]; [done| |].
  - intros [? ?]%Forall_cons. constructor; auto.
  - intros [? ?]%Forall_cons. auto.
Qed.

Lemma scan_sections_no_linebreak (full_text : str) (st : scan_state)
    (m : str) (lines : list str) :
  scan_sections full_text = Ok st →
  Dict.get m (sections st) = Some lines →
  Forall no_linebreak lines.
Proof.
  intros Hst Hg. unfold scan_sections in Hst.
  destruct (scan_lines_from [] (Py.splitlines full_text) scan_init
              scan_at_init) as (st' & Hst' & [[Hkeys _] _] & Hsec).
  assert (st' = st) as -> by congruence.
  assert (Hm : m ∈ markers).
  { rewrite <- Hkeys. apply dict_get_is_Some. by eexists. }
  rewrite (Hsec m [] (scan_init_get m Hm)) in Hg. injection Hg as <-.
  eapply sublist_Forall_2; [apply spec_section_from_sublist|].
  apply splitlines_no_linebreak.
Qed.

Lemma section_content_no_CR (lines : list str) :
  Forall no_linebreak lines → Forall (λ c, c ≠ CR) (section_content lines).
Proof.
  intros Hlines. apply strip_by_Forall, join_Forall.
  - repeat constructor. discriminate.
  - eapply Forall_impl; [exact Hlines|]. apply no_linebreak_no_CR.
Qed.

(** X5.  A section with lines can be read back: reading its file in text
    mode gives exactly the joined and trimmed lines, which have no
    whitespace at either end. *)
Theorem section_file_reads_back `{Library} (full_text : str) (w : world) :
  ∃ st w',
    scan_sections full_text = Ok st ∧
    save_sections_to_files full_text w = (Ok tt, w') ∧
    ∀ m lines, Dict.get m (sections st) = Some lines → lines ≠ [] →
      read_file (section_path m) w' = (Ok (section_content lines), w') ∧
      trimmed (section_content lines).
Proof.
  destruct (save_sections_run full_text w) as (st & Hst & Hkeys & Hrun).
  eexists st, _. split; [exact Hst|]. split; [exact Hrun|].
  intros m lines Hg Hne. split; [|apply strip_trimmed].
  unfold read_file. cbn [files].
  rewrite (saved_files_lookup _ _ m lines).
  - destruct lines as [|l lines]; [done|].
    rewrite universal_newlines_id; [done|].
    apply section_content_no_CR. by eapply scan_sections_no_linebreak.
  - rewrite Hkeys. apply section_paths_NoDup.
  - by apply dict_get_elem_of.
Qed.

Lemma section_file_reads_back_witness :
  ∃ w',
    @save_sections_to_files demo_library x_shuffled_text (World ∅ [] [])
    = (Ok tt, w') ∧
    @read_file (u "content_output/slide_outline.txt") w'
    = (Ok (u "Slide 1: Why" ++ [LF] ++ u "- Fast"), w').
Proof.
  destruct (@section_file_reads_back demo_library x_shuffled_text
              (World ∅ [] [])) as (st & w' & Hst & Hrun & Hread).
  exists w'. split; [exact Hrun|].
  apply (Hread (u "[SLIDE OUTLINE]") [u "Slide 1: Why"; u "- Fast"]).
  - vm_compute in Hst. injection Hst as <-. reflexivity.
  - discriminate.
Defined.

(** ** The slides of a deck *)

Lemma block_lines_clean (block : str) :
  Forall (λ l, trimmed l ∧ no_linebreak l) (block_lines block).
Proof.
  unfold block_lines. apply Forall_fmap, Forall_forall. intros l Hl.
  apply list_elem_of_In, List.filter_In in Hl as [Hl _].
  split; [apply strip_trimmed|]. apply strip_by_Forall.
  pose proof (splitlines_no_linebreak block) as Hall.
  rewrite Forall_forall in Hall. by apply Hall, list_elem_of_In.
Qed.

Lemma slide_title_clean (raw_title title : str) :
  trimmed raw_title → no_linebreak raw_title →
  slide_title_of raw_title = Ok title →
  trimmed title ∧ no_linebreak title.
Proof.
  intros Htrim Hnl Ht.
  destruct (slide_title_of_spec raw_title)
    as (title' & Ht' & [(before & after & Hraw & _ & ->)|[_ ->]]).
  - assert (title = Py.strip after) as -> by congruence.
    split; [apply strip_trimmed|]. apply strip_by_Forall.
    rewrite Hraw in Hnl. apply Forall_app in Hnl as [_ Hnl].
    by apply Forall_cons in Hnl as [_ ?].
  - by assert (title = raw_title) as -> by congruence.
Qed.

Lemma bullets_clean (rest : list str) :
  Forall no_linebreak rest →
  Forall (λ b, b ≠ [] ∧ trimmed b ∧ no_linebreak b)
    (List.filter Py.truthy (bullet_lines_of rest)).
Proof.
  intros Hrest. apply Forall_forall. intros b Hb.
  apply list_elem_of_In, List.filter_In in Hb as [Hb Hne].
  unfold bullet_lines_of in Hb. apply List.in_map_iff in Hb as (l & <- & Hl).
  split; [by intros Hnil; rewrite Hnil in Hne|].
  split; [apply strip_trimmed|].
  apply strip_by_Forall, lstrip_by_Forall.
  rewrite Forall_forall in Hrest. by apply Hrest, list_elem_of_In.
Qed.

Lemma add_block_slide_clean (prs prs' : list slide) (block : str) :
  add_block_slide prs block = Ok prs' →
  Forall well_formed_slide prs → Forall well_formed_slide prs'.
Proof.
  intros Hadd Hprs.
  pose proof (block_lines_clean block) as Hlines.
  destruct (block_lines block) as [|raw_title rest] eqn:Hb.
  - unfold add_block_slide in Hadd. rewrite Hb in Hadd. congruence.
  - destruct (add_block_slide_spec prs block raw_title rest Hb)
      as (title & Ht & Hadd').
    rewrite Hadd' in Hadd. injection Hadd as <-.
    apply Forall_cons in Hlines as [[Htrim Hnl] Hrest].
    apply Forall_app. split; [done|]. repeat constructor; simpl.
    + by eapply slide_title_clean.
    + by eapply slide_title_clean.
    + apply bullets_clean. eapply Forall_impl; [exact Hrest|]. by intros l [_ ?].
Qed.

(** X6.  Every slide the deck builder produces has a title and bullets
    that are single lines without whitespace at either end, and none of its
    bullets is empty. *)
Theorem deck_slides_are_clean (blocks : list str) (slides : list slide) :
  build_presentation blocks = Ok slides →
  Forall well_formed_slide slides.
Proof.
  unfold build_presentation.
  assert (Hgen : ∀ prs, Forall well_formed_slide prs →
    for_fold add_block_slide prs blocks = Ok slides →
    Forall well_formed_slide slides); [|by apply Hgen].
  induction blocks as [|b blocks IH]; intros prs Hprs; simpl.
  - by intros [= <-].
  - destruct (add_block_slide prs b) as [prs'|e] eqn:Hadd; [|done].
    simpl. apply IH. by eapply add_block_slide_clean.
Qed.

Lemma deck_slides_are_clean_witness :
  Forall well_formed_slide
    [Slide (u "Speed") [u "Fast"; [BULLET; SPACE] ++ u "Cheap"]].
Proof.
  apply (deck_slides_are_clean
           [u "  Slide 4:  Speed " ++ [LF] ++ u " - Fast  " ++ [LF; 9; LF]
            ++ u "-" ++ [9; BULLET; SPACE] ++ u "Cheap"]).
  reflexivity.
Defined.

(** ** [build_slides_from_outline] as a whole *)

(** The three ways through the function. *)
Lemma build_slides_run `{Library} (outline_path pptx_path : str) (w : world) :
  build_slides_from_outline outline_path pptx_path w
  = match files w !! outline_path with
    | None =>
        (Ok tt, World (files w) (writes w)
                  (stdout w ++ [missing_outline_message outline_path ++ [LF]]))
    | Some raw =>
        match outline_blocks (universal_newlines raw) with
        | [] =>
            (Ok tt, World (files w) (writes w)
                      (stdout w ++ [empty_outline_message ++ [LF]]))
        | b :: bs =>
            match build_presentation (b :: bs) with
            | Ok prs =>
                (Ok tt, World (<[pptx_path := pptx_save prs]> (files w))
                          (writes w ++ [pptx_path])
                          (stdout w ++ [generated_message pptx_path ++ [LF]]))
            | Raise e => (Raise e, w)
            end
        end
    end.
Proof.
  unfold build_slides_from_outline.
  destruct (files w !! outline_path) as [raw|] eqn:Hf.
  - rewrite (bind_ok _ _ w w true).
    2:{ unfold path_exists. rewrite Hf.
        by rewrite bool_decide_eq_true_2 by (by eexists). }
    simpl. rewrite (bind_ok _ _ w w (universal_newlines raw)).
    2:{ unfold read_file. by rewrite Hf. }
    destruct (outline_blocks (universal_newlines raw)) as [|b bs]; [done|].
    unfold mbind, M_bind, lift.
    by destruct (build_presentation (b :: bs)).
  - rewrite (bind_ok _ _ w w false); [done|].
    unfold path_exists. rewrite Hf.
    by rewrite bool_decide_eq_false_2 by (by intros [? ?]).
Qed.

Lemma build_presentation_ok (text : str) :
  ∃ slides, build_presentation (outline_blocks text) = Ok slides ∧
    length slides = length (outline_blocks text).
Proof.
  destruct (build_presentation_from (outline_blocks text) [])
    as (slides & Hs & Hlen); [|by exists slides].
  apply Forall_forall. intros b Hb. by eapply outline_block_has_title.
Qed.

Lemma universal_newlines_keeps (n : nat) :
  ∀ (raw : str) (c : char), (length raw ≤ n)%nat →
    c ≠ CR → c ∈ raw → c ∈ universal_newlines raw.
Proof.
  induction n as [|n IH]; intros raw c Hlen Hc Hin.
  - destruct raw; [by apply elem_of_nil in Hin | simpl in Hlen; lia].
  - destruct raw as [|a raw]; [by apply elem_of_nil in Hin|].
    simpl in Hlen. cbn [universal_newlines].
    destruct (a =? CR) eqn:Ha.
    + apply N.eqb_eq in Ha as ->.
      apply elem_of_cons in Hin as [?|Hin]; [done|].
      destruct raw as [|d raw]; [by apply elem_of_nil in Hin|].
      simpl in Hlen. destruct (d =? LF) eqn:Hd.
      * apply N.eqb_eq in Hd as ->.
        apply elem_of_cons in Hin as [->|Hin]; apply elem_of_cons;
          [by left | right]. apply IH; [lia|done|done].
      * apply elem_of_cons. right. apply IH; [simpl; lia|done|done].
    + apply elem_of_cons in Hin as [->|Hin]; apply elem_of_cons;
        [by left | right]. apply IH; [lia|done|done].
Qed.

Lemma has_text_not_blank (s : str) : has_text s → ¬ blank s.
Proof.
  intros (c & Hin & Hc) Hb. unfold blank in Hb.
  rewrite Forall_forall in Hb. specialize (Hb c Hin). simpl in Hb. congruence.
Qed.

Lemma universal_newlines_has_text (raw : str) :
  has_text raw → has_text (universal_newlines raw).
Proof.
  intros (c & Hin & Hc). exists c. split; [|done].
  apply (universal_newlines_keeps (length raw)); [lia| |done].
  intros ->. by vm_compute in Hc.
Qed.

Lemma outline_blocks_has_text (text : str) :
  has_text text → outline_blocks text ≠ [].
Proof.
  intros Ht Hnil. apply outline_blocks_nil_iff in Hnil.
  by apply (has_text_not_blank text).
Qed.

Lemma outline_with_text_gives_deck_aux `{Library} (outline_path pptx_path : str)
    (w : world) (raw : str) :
  files w !! outline_path = Some raw → has_text raw →
  ∃ slides,
    build_presentation (outline_blocks (universal_newlines raw)) = Ok slides ∧
    slides ≠ [] ∧
    build_slides_from_outline outline_path pptx_path w
    = (Ok tt, World (<[pptx_path := pptx_save slides]> (files w))
                (writes w ++ [pptx_path])
                (stdout w ++ [generated_message pptx_path ++ [LF]])).
Proof.
  intros Hf Ht. rewrite build_slides_run, Hf.
  pose proof (outline_blocks_has_text _ (universal_newlines_has_text raw Ht))
    as Hne.
  destruct (build_presentation_ok (universal_newlines raw))
    as (slides & Hs & Hlen).
  exists slides. split; [done|].
  destruct (outline_blocks (universal_newlines raw)) as [|b bs]; [done|].
  split; [by destruct slides|]. by rewrite Hs.
Qed.

(** X7.  When the outline file has a character that is not whitespace and
    [build_slides_from_outline] returns, it has written the deck path and
    no other, with the presentation built from the blocks of the text, one
    slide per block and at least one, and it has printed the line that
    reports the deck. *)
Theorem outline_with_text_gives_deck `{Library} (outline_path pptx_path : str)
    (w w' : world) (raw : str) :
  files w !! outline_path = Some raw → has_text raw →
  build_slides_from_outline outline_path pptx_path w = (Ok tt, w') →
  ∃ slides,
    build_presentation (outline_blocks (universal_newlines raw)) = Ok slides ∧
    slides ≠ [] ∧
    length slides = length (outline_blocks (universal_newlines raw)) ∧
    w' = World (<[pptx_path := pptx_save slides]> (files w))
           (writes w ++ [pptx_path])
           (stdout w ++ [generated_message pptx_path ++ [LF]]).
Proof.
  intros Hf Ht Hrun.
  destruct (outline_with_text_gives_deck_aux outline_path pptx_path w raw
              Hf Ht) as (slides & Hs & Hne & Hrun').
  exists slides. split; [done|]. split; [done|]. split.
  - destruct (build_presentation_ok (universal_newlines raw))
      as (slides' & Hs' & Hlen).
    congruence.
  - congruence.
Qed.

Lemma outline_with_text_gives_deck_witness :
  ∃ slides,
    slides = [Slide (u "Why") [u "Fast"]; Slide (u "How") []] ∧
    @build_slides_from_outline demo_library main_outline_path main_deck_path
      (World {[ main_outline_path := x_outline ]} [] [])
    = (Ok tt,
       World (<[main_deck_path := @pptx_save demo_library slides]>
                {[ main_outline_path := x_outline ]})
         [main_deck_path] [generated_message main_deck_path ++ [LF]]).
Proof.
  destruct (@outline_with_text_gives_deck demo_library main_outline_path
              main_deck_path (World {[ main_outline_path := x_outline ]} [] [])
              (World (<[main_deck_path :=
                          @pptx_save demo_library
                            [Slide (u "Why") [u "Fast"]; Slide (u "How") []]]>
                        {[ main_outline_path := x_outline ]})
                 [main_deck_path] [generated_message main_deck_path ++ [LF]])
              x_outline) as (slides & Hs & _ & _ & _).
  - reflexivity.
  - exists 83. split; [|reflexivity].
    apply (bool_decide_unpack _). vm_compute. exact I.
  - reflexivity.
  - exists slides. vm_compute in Hs. injection Hs as <-.
    split; reflexivity.
Defined.



(** ** Two outlines, one behind the other *)

Lemma split_at_newline (s : str) :
  Py.split [LF] None (LF :: s) = [] :: Py.split [LF] None s.
Proof. by rewrite split_at_sep. Qed.

Lemma text_lines_app (a b : str) :
  text_lines (a ++ LF :: b) = text_lines a ++ text_lines b.
Proof.
  unfold text_lines. induction a as [|c a IH].
  - cbn [app]. by rewrite split_at_newline, split_nil.
  - rewrite <- app_comm_cons. destruct (decide (c = LF)) as [->|Hc].
    + by rewrite !split_at_newline, IH.
    + rewrite !split_no_sep by (by apply startswith_cons_ne).
      rewrite IH.
      pose proof (split_go_nonempty [LF] (length a) 0 a) as Hne.
      unfold Py.split. cbn [default].
      by destruct (Py.split_go [LF] (length a) 0 a).
Qed.

Lemma line_runs_app (L1 L2 : list str) :
  line_runs is_empty_line (L1 ++ [] :: L2)
  = line_runs is_empty_line L1 ++ line_runs is_empty_line L2.
Proof.
  induction L1 as [|l L1 IH]; [done|].
  rewrite <- app_comm_cons. cbn [line_runs]. rewrite IH.
  destruct (is_empty_line l); [done|].
  pose proof (line_runs_nonempty is_empty_line L1) as Hne.
  by destruct (line_runs is_empty_line L1).
Qed.

Lemma blocks_of_pieces_app (xs ys : list str) :
  blocks_of_pieces (xs ++ ys) = blocks_of_pieces xs ++ blocks_of_pieces ys.
Proof.
  unfold blocks_of_pieces. by rewrite List.filter_app, List.map_app.
Qed.

Lemma outline_blocks_app (t1 t2 : str) :
  outline_blocks (t1 ++ [LF; LF] ++ t2) = outline_blocks t1 ++ outline_blocks t2.
Proof.
  rewrite !outline_blocks_as_runs.
  unfold spec_blocks_empty_lines, blocks_between.
  fold (blocks_of_pieces
          (List.map (Py.join [LF])
             (line_runs is_empty_line (text_lines (t1 ++ [LF; LF] ++ t2))))).
  change (t1 ++ [LF; LF] ++ t2) with (t1 ++ LF :: ([] ++ LF :: t2)).
  rewrite !text_lines_app. change (text_lines []) with [@nil N].
  cbn [app]. rewrite line_runs_app, List.map_app.
  apply blocks_of_pieces_app.
Qed.

Lemma add_block_slide_from (prs : list slide) (block : str) :
  add_block_slide prs block
  = match add_block_slide [] block with
    | Ok added => Ok (prs ++ added)
    | Raise e => Raise e
    end.
Proof.
  unfold add_block_slide.
  destruct (block_lines block) as [|raw_title rest];
    [by rewrite app_nil_r|].
  by destruct (slide_title_of raw_title).
Qed.

Lemma for_fold_add_block_from (blocks : list str) (prs : list slide) :
  for_fold add_block_slide prs blocks
  = match for_fold add_block_slide [] blocks with
    | Ok added => Ok (prs ++ added)
    | Raise e => Raise e
    end.
Proof.
  revert prs. induction blocks as [|b blocks IH]; intros prs; simpl.
  - by rewrite app_nil_r.
  - rewrite (add_block_slide_from prs b).
    destruct (add_block_slide [] b) as [added|e]; simpl; [|done].
    rewrite (IH (prs ++ added)), (IH added).
    destruct (for_fold add_block_slide [] blocks); [|done].
    by rewrite app_assoc.
Qed.

(** X10.  Two outlines with an empty line between them give the blocks of
    the first followed by the blocks of the second, and the deck of the
    first followed by the deck of the second. *)
Theorem deck_of_joined_outlines (t1 t2 : str) :
  outline_blocks (t1 ++ [LF; LF] ++ t2) = outline_blocks t1 ++ outline_blocks t2
  ∧ ∃ s1 s2,
      build_presentation (outline_blocks t1) = Ok s1 ∧
      build_presentation (outline_blocks t2) = Ok s2 ∧
      build_presentation (outline_blocks (t1 ++ [LF; LF] ++ t2))
      = Ok (s1 ++ s2).
Proof.
  split; [apply outline_blocks_app|].
  destruct (build_presentation_ok t1) as (s1 & Hs1 & _).
  destruct (build_presentation_ok t2) as (s2 & Hs2 & _).
  exists s1, s2. split; [done|]. split; [done|].
  rewrite outline_blocks_app. unfold build_presentation in *.
  rewrite for_fold_app, Hs1. simpl.
  by rewrite for_fold_add_block_from, Hs2.
Qed.

(** ** From the content pack to the deck *)







(** X14.  The topic that passes the check is the typed line trimmed: it is
    not empty and has no whitespace at either end, and only the prompt has
    been written when it is returned. *)
Theorem topic_is_trimmed (typed topic : str) (w w' : world) :
  read_topic typed w = (Ok topic, w') →
  topic = Py.strip typed ∧ topic ≠ [] ∧ trimmed topic ∧
  w' = World (files w) (writes w) (stdout w ++ [topic_prompt]).
Proof.
  unfold read_topic, mbind, M_bind, write_stdout. simpl.
  destruct (Py.strip typed) as [|c t] eqn:Hs; [done|]. simpl.
  intros [= <- <-]. split; [done|]. split; [done|]. split; [|done].
  rewrite <- Hs. apply strip_trimmed.
Qed.

Lemma topic_is_trimmed_witness :
  u "AI agents" = Py.strip ([9] ++ u " AI agents  ") ∧ u "AI agents" ≠ [] ∧
  trimmed (u "AI agents") ∧
  World ∅ [] [topic_prompt] = World ∅ [] ([] ++ [topic_prompt]).
Proof.
  apply (topic_is_trimmed ([9] ++ u " AI agents  ") (u "AI agents")
           (World ∅ [] []) (World ∅ [] [topic_prompt])).
  reflexivity.
Defined.
